(** * OIDC views of django-oauth-toolkit: discovery, JWKS and RP-initiated logout

    A shallow embedding of [oauth2_provider/views/oidc.py].  Python
    dictionaries are finite maps, the values read from a request are
    [option string] ([None] or a [str]), and the code that talks to the
    stores and to the session runs in a small state-and-exception monad
    whose state records the authenticated user and the calls made to the
    collaborators. *)

From Stdlib Require Import ZArith List Bool String Ascii.
From stdpp Require Import base option strings gmap pretty.

Open Scope string_scope.

(** ** Python values and truthiness *)

(** [if v:] for a value that is [None] or a [str]. *)
Definition truthy (v : option string) : bool :=
  match v with
  | Some (String _ _) => true
  | Some EmptyString => false
  | None => false
  end.

(** The [str] held by a value; used only under [truthy]. *)
Definition str_value (v : option string) : string := default "" v.

(** [if s:] for a [str] setting. *)
Definition nonempty (s : string) : bool :=
  match s with
  | EmptyString => false
  | String _ _ => true
  end.

(** [a or b] on two [str] values. *)
Definition str_or (a b : string) : string := if nonempty a then a else b.

(** ** Data model *)

(** [request.user]: a stored user (by primary key) or Django's
    [AnonymousUser]. *)
Inductive User :=
| AnonymousUser
| AuthUser (pk : nat).

#[global] Instance User_eq_dec : EqDecision User.
Proof. solve_decision. Defined.

(** A row of the application model.  The two methods live in the model
    module; here they are the object's fields. *)
Module Application.
Record t := {
  client_id : string;
  client_type : string;
  get_allowed_schemes : list string;
  post_logout_redirect_uri_allowed : string → bool
}.
Definition HS256_ALGORITHM : string := "HS256".
Definition RS256_ALGORITHM : string := "RS256".
End Application.

(** A stored ID token, as returned by the validator's [_load_id_token]. *)
Module IDToken.
Record t := {
  user : User;
  application : Application.t
}.
End IDToken.

(** The exceptions of [..exceptions] that the views raise. *)
Inductive OIDCError :=
| InvalidIDTokenError
| ClientIdMissmatch
| InvalidOIDCClientError
| InvalidOIDCRedirectURIError (description : string)
| LogoutDenied.

(** Everything that the views raise: an [OIDCError], the exceptions of
    the object manager's [get] and of attribute access on [None], and an
    exception of another class, by its name, raised by the constructor of
    the redirect response.  Only the first derives from [OIDCError]. *)
Inductive Exception :=
| OIDC (error : OIDCError)
| DoesNotExist
| MultipleObjectsReturned
| AttributeError
| Raised (class_name : string).

(** JSON payloads. *)
#[local] Unset Elimination Schemes.
Inductive json :=
| JStr (s : string)
| JList (l : list json)
| JObj (o : gmap string json).

#[local] Set Elimination Schemes.

Definition JStrs (l : list string) : json := JList (JStr <$> l).

(** [oauth2_settings], the attributes the views read. *)
Record Settings := {
  OIDC_ISS_ENDPOINT : string;
  OIDC_USERINFO_ENDPOINT : string;
  OIDC_RP_INITIATED_LOGOUT_ENABLED : bool;
  OIDC_RP_INITIATED_LOGOUT_ALWAYS_PROMPT : bool;
  OIDC_RSA_PRIVATE_KEY : string;
  OIDC_RSA_PRIVATE_KEYS_INACTIVE : list string;
  OIDC_JWKS_MAX_AGE_SECONDS : Z;
  OIDC_RESPONSE_TYPES_SUPPORTED : list string;
  OIDC_SUBJECT_TYPES_SUPPORTED : list string;
  OIDC_TOKEN_ENDPOINT_AUTH_METHODS_SUPPORTED : list string;
  ALLOWED_REDIRECT_URI_SCHEMES : list string;
  (** [oauth2_settings.oidc_issuer(request)] *)
  oidc_issuer : string
}.

(** The collaborators outside this module: the validator and scopes
    backends, the application table, [urllib], [oauthlib], [jwcrypto],
    the URL resolver and the exception classes' [status_code].  The token
    loader, the parsers and the other helpers are taken where they
    return: a run in which one of them raises ([urlparse] raises
    [ValueError] on some malformed hosts) is not a run of the model. *)
Record Collaborators := {
  _load_id_token : string → option IDToken.t;
  get_discovery_claims : list string;
  get_available_scopes : list string;
  application_rows : list Application.t;
  urlparse_scheme : string → string;
  urlparse_netloc : string → string;
  add_params_to_uri : string → list (string * string) → string;
  reverse : string → string;
  build_absolute_uri : string → string;
  jwk_thumbprint : string → string;
  jwk_export_public : string → gmap string json;
  status_code : OIDCError → Z;
  (** [OAuth2ResponseRedirect(redirect_to, allowed_schemes)] of [..http]:
      the class of the exception that the constructor raises for this
      target, if it raises; Django's redirect responses refuse a target
      whose scheme is not among the allowed ones. *)
  OAuth2ResponseRedirect_raises : string → list string → option string
}.

(** ** The monad of the logout views *)

(** Calls made to the stores, to [urlparse] on the redirect target and to
    the session manager, in order. *)
Inductive Call :=
| CallLoadIdToken (hint : string)
| CallObjectsGet (client_id : string)
| CallUrlparse (uri : string)
| CallLogout.

#[global] Instance Call_eq_dec : EqDecision Call.
Proof. solve_decision. Defined.

Record World := {
  request_user : User;
  calls : list Call
}.

Definition M (A : Type) : Type := World → World * (Exception + A).

#[global] Instance M_ret : MRet M := λ A x w, (w, inr x).

#[global] Instance M_bind : MBind M := λ A B f m w,
  match m w with
  | (w', inl e) => (w', inl e)
  | (w', inr a) => f a w'
  end.

#[global] Instance M_fmap : FMap M := λ A B f m, m ≫= λ a, mret (f a).

Definition raise {A} (e : Exception) : M A := λ w, (w, inl e).

(** The world after further calls, with the same user. *)
Definition called (w : World) (cs : list Call) : World :=
  {| request_user := request_user w; calls := calls w ++ cs |}.

Definition call (c : Call) : M unit := λ w, (called w [c], inr tt).

(** [if c: raise e] *)
Definition raise_if (c : bool) (e : Exception) : M unit :=
  if c then raise e else mret tt.

(** [try: m except OIDCError as error: h error] *)
Definition try_except_OIDCError {A} (m : M A) (h : OIDCError → M A) : M A := λ w,
  match m w with
  | (w', inl (OIDC error)) => h error w'
  | r => r
  end.

(** The world after [logout]: the session is flushed and [request.user]
    is the anonymous user. *)
Definition logged_out (w : World) : World :=
  {| request_user := AnonymousUser; calls := calls w ++ [CallLogout] |}.

(** [django.contrib.auth.logout(request)] *)
Definition logout : M unit := λ w, (logged_out w, inr tt).

(** From [w] to [w'] the user is the same and [logout] was not called. *)
Definition session_intact (w w' : World) : Prop :=
  request_user w' = request_user w
  ∧ ∃ cs : list Call, calls w' = (calls w ++ cs)%list ∧ CallLogout ∉ cs.

(** [m] neither changes the user nor calls [logout], whatever it returns
    or raises. *)
Definition preserves_session {A} (m : M A) : Prop :=
  ∀ w w' r, m w = (w', r) → session_intact w w'.

(** HTTP responses. *)
Inductive TemplateContext :=
| ConfirmContext (form_initial : gmap string (option string))
                 (application : option Application.t)
| ErrorContext (error : OIDCError).

Inductive HttpResponse :=
| OAuth2ResponseRedirect (redirect_to : string) (allowed_schemes : list string)
| TemplateResponse (context : TemplateContext) (status : Z)
| JsonResponse (data : gmap string json) (headers : gmap string string).

(** The bound and cleaned confirmation form: its character fields and
    the [allow] check box. *)
Record ConfirmLogoutForm := {
  cleaned_data : gmap string string;
  cleaned_allow : bool
}.

(** What a [try] block hands on: its value, or the response of a
    [return] inside the [except] clause. *)
Inductive Flow (A : Type) :=
| Normal (a : A)
| Return (response : HttpResponse).
Arguments Normal {A} a.
Arguments Return {A} response.

Section Views.
Context (oauth2_settings : Settings) (env : Collaborators).

(** *** Discovery and JWKS *)

(** [ConnectDiscoveryInfoView.get] *)
Definition ConnectDiscoveryInfoView_get : HttpResponse :=
  let issuer_url := OIDC_ISS_ENDPOINT oauth2_settings in
  let '(issuer_url, authorization_endpoint, token_endpoint,
        userinfo_endpoint, jwks_uri, end_session_endpoint) :=
    if negb (nonempty issuer_url) then
      (oidc_issuer oauth2_settings,
       build_absolute_uri env (reverse env "oauth2_provider:authorize"),
       build_absolute_uri env (reverse env "oauth2_provider:token"),
       str_or (OIDC_USERINFO_ENDPOINT oauth2_settings)
              (build_absolute_uri env (reverse env "oauth2_provider:user-info")),
       build_absolute_uri env (reverse env "oauth2_provider:jwks-info"),
       build_absolute_uri env (reverse env "oauth2_provider:rp-initiated-logout"))
    else
      let host := urlparse_scheme env (OIDC_ISS_ENDPOINT oauth2_settings) +:+ "://"
                  +:+ urlparse_netloc env (OIDC_ISS_ENDPOINT oauth2_settings) in
      (issuer_url,
       host +:+ reverse env "oauth2_provider:authorize",
       host +:+ reverse env "oauth2_provider:token",
       str_or (OIDC_USERINFO_ENDPOINT oauth2_settings)
              (host +:+ reverse env "oauth2_provider:user-info"),
       host +:+ reverse env "oauth2_provider:jwks-info",
       host +:+ reverse env "oauth2_provider:rp-initiated-logout") in
  let signing_algorithms :=
    if nonempty (OIDC_RSA_PRIVATE_KEY oauth2_settings)
    then [Application.RS256_ALGORITHM; Application.HS256_ALGORITHM]
    else [Application.HS256_ALGORITHM] in
  (* list(set(...)): the elements of the set, in the set's own order *)
  let oidc_claims := elements (list_to_set (get_discovery_claims env) : gset string) in
  (* [scope for scope in scopes.get_available_scopes()] *)
  let scopes_supported := (λ scope, scope) <$> get_available_scopes env in
  let data : gmap string json :=
    list_to_map [
      ("issuer", JStr issuer_url);
      ("authorization_endpoint", JStr authorization_endpoint);
      ("token_endpoint", JStr token_endpoint);
      ("userinfo_endpoint", JStr userinfo_endpoint);
      ("jwks_uri", JStr jwks_uri);
      ("scopes_supported", JStrs scopes_supported);
      ("response_types_supported",
         JStrs (OIDC_RESPONSE_TYPES_SUPPORTED oauth2_settings));
      ("subject_types_supported",
         JStrs (OIDC_SUBJECT_TYPES_SUPPORTED oauth2_settings));
      ("id_token_signing_alg_values_supported", JStrs signing_algorithms);
      ("token_endpoint_auth_methods_supported",
         JStrs (OIDC_TOKEN_ENDPOINT_AUTH_METHODS_SUPPORTED oauth2_settings));
      ("claims_supported", JStrs oidc_claims)
    ] in
  let data :=
    if OIDC_RP_INITIATED_LOGOUT_ENABLED oauth2_settings
    then <["end_session_endpoint" := JStr end_session_endpoint]> data
    else data in
  JsonResponse data (<["Access-Control-Allow-Origin" := "*"]> ∅).

(** An entry of the JSON document of a response. *)
Definition json_field (name : string) (response : HttpResponse) : option json :=
  match response with
  | JsonResponse data _ => data !! name
  | _ => None
  end.

(** The value assigned to [response["Cache-Control"]]. *)
Definition jwks_cache_control : string :=
  "Cache-Control: public, "
  +:+ ("max-age=" +:+ pretty (OIDC_JWKS_MAX_AGE_SECONDS oauth2_settings) +:+ ", ")
  +:+ ("stale-while-revalidate=" +:+ pretty (OIDC_JWKS_MAX_AGE_SECONDS oauth2_settings) +:+ ", ")
  +:+ ("stale-if-error=" +:+ pretty (OIDC_JWKS_MAX_AGE_SECONDS oauth2_settings)).

(** [JwksInfoView.get] *)
Definition JwksInfoView_get : HttpResponse :=
  let keys :=
    if nonempty (OIDC_RSA_PRIVATE_KEY oauth2_settings) then
      (λ pem,
         let data : gmap string json :=
           list_to_map [("alg", JStr "RS256"); ("use", JStr "sig");
                        ("kid", JStr (jwk_thumbprint env pem))] in
         (* data.update(...): the exported fields win *)
         jwk_export_public env pem ∪ data)
      <$> (OIDC_RSA_PRIVATE_KEY oauth2_settings
             :: OIDC_RSA_PRIVATE_KEYS_INACTIVE oauth2_settings)
    else [] in
  JsonResponse {[ "keys" := JList (JObj <$> keys) ]}
    (<["Cache-Control" := jwks_cache_control]>
       (<["Access-Control-Allow-Origin" := "*"]> ∅)).

Definition header (name : string) (response : HttpResponse) : option string :=
  match response with
  | JsonResponse _ headers => headers !! name
  | _ => None
  end.

(** *** Collaborator calls, in the monad *)

(** [validator._load_id_token(hint)], which returns the token or
    [None]. *)
Definition load_id_token (hint : string) : M (option IDToken.t) :=
  call (CallLoadIdToken hint);;
  mret (_load_id_token env hint).

(** [get_application_model().objects.get(client_id=...)]: exactly one
    matching row, or an exception. *)
Definition objects_get (client_id : string) : M Application.t :=
  call (CallObjectsGet client_id);;
  match filter (λ a, Application.client_id a = client_id) (application_rows env) with
  | [] => raise DoesNotExist
  | [a] => mret a
  | _ => raise MultipleObjectsReturned
  end.

(** [urlparse(uri)[0]], for a URI that [urlparse] parses. *)
Definition urlparse_0 (uri : string) : M string :=
  call (CallUrlparse uri);;
  mret (urlparse_scheme env uri).

(** *** [validate_logout_request] *)

Definition validate_logout_request (user : User)
    (id_token_hint client_id post_logout_redirect_uri : option string)
  : M (bool * (option string * option Application.t)) :=
  '(id_token, must_prompt_logout) ←
    (if truthy id_token_hint then
       id_token ← load_id_token (str_value id_token_hint);
       match id_token with
       | None => raise (OIDC InvalidIDTokenError)
       | Some tok =>
           let must_prompt_logout :=
             if bool_decide (IDToken.user tok = user) then false else true in
           (if truthy client_id then
              raise_if
                (bool_decide (Application.client_id (IDToken.application tok)
                              ≠ str_value client_id))
                (OIDC ClientIdMissmatch)
            else mret tt);;
           mret (Some tok, must_prompt_logout)
       end
     else mret (None, true));
  let prompt_logout :=
    must_prompt_logout || OIDC_RP_INITIATED_LOGOUT_ALWAYS_PROMPT oauth2_settings in
  application ←
    (if truthy client_id then Some <$> objects_get (str_value client_id)
     else mret (IDToken.application <$> id_token));
  (if truthy post_logout_redirect_uri then
     match application with
     | None => raise (OIDC InvalidOIDCClientError)
     | Some app =>
         scheme ← urlparse_0 (str_value post_logout_redirect_uri);
         raise_if (negb (nonempty scheme))
           (OIDC (InvalidOIDCRedirectURIError
                    "A Scheme is required for the redirect URI."));;
         raise_if (bool_decide (scheme = "http")
                   && bool_decide (Application.client_type app ≠ "confidential"))
           (OIDC (InvalidOIDCRedirectURIError
                    "http is only allowed with confidential clients."));;
         raise_if (bool_decide (scheme ∉ Application.get_allowed_schemes app))
           (OIDC (InvalidOIDCRedirectURIError
                    ("Redirect to scheme " +:+ String.String (ascii_of_nat 34) scheme
                     +:+ String.String (ascii_of_nat 34) " is not permitted.")));;
         raise_if
           (negb (Application.post_logout_redirect_uri_allowed app
                    (str_value post_logout_redirect_uri)))
           (OIDC (InvalidOIDCRedirectURIError
                    "This client does not have this redirect uri registered."))
     end
   else mret tt);;
  mret (prompt_logout, (post_logout_redirect_uri, application)).

(** *** [RPInitiatedLogoutView] *)

(** [self.oidc_data.get(key, None)] *)
Definition oidc_data_get (oidc_data : gmap string (option string)) (key : string)
  : option string :=
  default None (oidc_data !! key).

Definition get_initial (oidc_data : gmap string (option string))
  : gmap string (option string) :=
  list_to_map [
    ("id_token_hint", oidc_data_get oidc_data "id_token_hint");
    ("logout_hint", oidc_data_get oidc_data "logout_hint");
    ("client_id", oidc_data_get oidc_data "client_id");
    ("post_logout_redirect_uri", oidc_data_get oidc_data "post_logout_redirect_uri");
    ("state", oidc_data_get oidc_data "state");
    ("ui_locales", oidc_data_get oidc_data "ui_locales")
  ].

(** [application.get_allowed_schemes()] on a value that may be [None]. *)
Definition get_allowed_schemes_of (application : option Application.t)
  : M (list string) :=
  match application with
  | Some app => mret (Application.get_allowed_schemes app)
  | None => raise AttributeError
  end.

(** The call [OAuth2ResponseRedirect(redirect_to, allowed_schemes)]: the
    response, unless the constructor raises. *)
Definition new_OAuth2ResponseRedirect (redirect_to : string)
    (allowed_schemes : list string) : M HttpResponse :=
  match OAuth2ResponseRedirect_raises env redirect_to allowed_schemes with
  | Some class_name => raise (Raised class_name)
  | None => mret (OAuth2ResponseRedirect redirect_to allowed_schemes)
  end.

Definition do_logout (application : option Application.t)
    (post_logout_redirect_uri state : option string) : M HttpResponse :=
  logout;;
  if truthy post_logout_redirect_uri then
    if truthy state then
      let redirect_to :=
        add_params_to_uri env (str_value post_logout_redirect_uri)
          [("state", str_value state)] in
      allowed_schemes ← get_allowed_schemes_of application;
      new_OAuth2ResponseRedirect redirect_to allowed_schemes
    else
      allowed_schemes ← get_allowed_schemes_of application;
      new_OAuth2ResponseRedirect (str_value post_logout_redirect_uri) allowed_schemes
  else
    new_OAuth2ResponseRedirect (build_absolute_uri env "/")
      (ALLOWED_REDIRECT_URI_SCHEMES oauth2_settings).

Definition error_response (error : OIDCError) : HttpResponse :=
  TemplateResponse (ErrorContext error) (status_code env error).

(** [self.request.user] *)
Definition current_user : M User := λ w, (w, inr (request_user w)).

(** [RPInitiatedLogoutView.get], with [request.GET] as argument. *)
Definition get (GET : gmap string string) : M HttpResponse :=
  let id_token_hint := GET !! "id_token_hint" in
  let client_id := GET !! "client_id" in
  let post_logout_redirect_uri := GET !! "post_logout_redirect_uri" in
  let state := GET !! "state" in
  user ← current_user;
  validated ←
    try_except_OIDCError
      (Normal <$> validate_logout_request user id_token_hint client_id
                    post_logout_redirect_uri)
      (λ error, mret (Return (error_response error)));
  match validated with
  | Return response => mret response
  | Normal (prompt, (redirect_uri, application)) =>
      if negb prompt then do_logout application redirect_uri state
      else
        let oidc_data : gmap string (option string) :=
          list_to_map [
            ("id_token_hint", id_token_hint);
            ("client_id", client_id);
            ("post_logout_redirect_uri", post_logout_redirect_uri);
            ("state", state)
          ] in
        mret (TemplateResponse (ConfirmContext (get_initial oidc_data) application) 200)
  end.

(** [RPInitiatedLogoutView.form_valid] *)
Definition form_valid (form : ConfirmLogoutForm) : M HttpResponse :=
  let id_token_hint := cleaned_data form !! "id_token_hint" in
  let client_id := cleaned_data form !! "client_id" in
  let post_logout_redirect_uri := cleaned_data form !! "post_logout_redirect_uri" in
  let state := cleaned_data form !! "state" in
  user ← current_user;
  try_except_OIDCError
    ('(prompt, (redirect_uri, application)) ←
       validate_logout_request user id_token_hint client_id post_logout_redirect_uri;
     if negb prompt || cleaned_allow form
     then do_logout application redirect_uri state
     else raise (OIDC LogoutDenied))
    (λ error, mret (error_response error)).

End Views.

(** ** A concrete deployment, used to run the views *)

Definition is_scheme_char (c : ascii) : bool :=
  let n := nat_of_ascii c in
  (97 <=? n)%nat && (n <=? 122)%nat || (65 <=? n)%nat && (n <=? 90)%nat
  || (48 <=? n)%nat && (n <=? 57)%nat
  || bool_decide (c = "+"%char) || bool_decide (c = "-"%char)
  || bool_decide (c = "."%char).

Definition is_alpha (c : ascii) : bool :=
  let n := nat_of_ascii c in
  (97 <=? n)%nat && (n <=? 122)%nat || (65 <=? n)%nat && (n <=? 90)%nat.

Definition lower (c : ascii) : ascii :=
  let n := nat_of_ascii c in
  if (65 <=? n)%nat && (n <=? 90)%nat then ascii_of_nat (n + 32) else c.

(** The characters of [url] before its first colon, when there is one. *)
Fixpoint before_colon (url : string) : option string :=
  match url with
  | EmptyString => None
  | String c rest =>
      if bool_decide (c = ":"%char) then Some EmptyString
      else String c <$> before_colon rest
  end.

Fixpoint string_forallb (p : ascii → bool) (s : string) : bool :=
  match s with
  | EmptyString => true
  | String c rest => p c && string_forallb p rest
  end.

Fixpoint string_map (f : ascii → ascii) (s : string) : string :=
  match s with
  | EmptyString => EmptyString
  | String c rest => String (f c) (string_map f rest)
  end.

(** A stand-in for the scheme of [urllib.parse.urlsplit], for URLs
    that urllib parses and that hold no blank or control character: the
    text before the first colon, lower-cased, when it starts with a
    letter and holds only scheme characters; the empty string otherwise.
    (urllib also strips leading blanks and removes tab, CR and LF, and
    raises on some malformed hosts.) *)
Definition urlsplit_scheme (url : string) : string :=
  match before_colon url with
  | Some (String c rest) =>
      if is_alpha c && string_forallb is_scheme_char rest
      then string_map lower (String c rest)
      else ""
  | _ => ""
  end.

Fixpoint has_char (c : ascii) (s : string) : bool :=
  match s with
  | EmptyString => false
  | String d rest => bool_decide (c = d) || has_char c rest
  end.

(** Appending parameters to the query of a URI without fragment, for
    parameters that need no escaping. *)
Fixpoint append_params (uri : string) (params : list (string * string)) : string :=
  match params with
  | [] => uri
  | (k, v) :: rest =>
      append_params
        (uri +:+ (if has_char "?"%char uri then "&" else "?") +:+ k +:+ "=" +:+ v)
        rest
  end.

(** A stand-in for the check of Django's redirect responses: a target
    with a scheme that is not allowed is refused. *)
Definition disallowed_redirect (redirect_to : string) (allowed_schemes : list string)
  : option string :=
  let scheme := urlsplit_scheme redirect_to in
  if nonempty scheme && bool_decide (scheme ∉ allowed_schemes)
  then Some "DisallowedRedirect" else None.

Module Example.

Definition app_abc : Application.t := {|
  Application.client_id := "abc";
  Application.client_type := "confidential";
  Application.get_allowed_schemes := ["http"; "https"];
  Application.post_logout_redirect_uri_allowed :=
    λ uri, bool_decide (uri = "https://app.example/done")
|}.

Definition app_pub : Application.t := {|
  Application.client_id := "pub";
  Application.client_type := "public";
  Application.get_allowed_schemes := ["http"; "https"];
  Application.post_logout_redirect_uri_allowed :=
    λ uri, bool_decide (uri = "http://pub.example/bye")
|}.

Definition alice : User := AuthUser 1.
Definition bob : User := AuthUser 2.

Definition token_alice : IDToken.t :=
  {| IDToken.user := alice; IDToken.application := app_abc |}.
Definition token_bob : IDToken.t :=
  {| IDToken.user := bob; IDToken.application := app_pub |}.

Definition settings : Settings := {|
  OIDC_ISS_ENDPOINT := "";
  OIDC_USERINFO_ENDPOINT := "";
  OIDC_RP_INITIATED_LOGOUT_ENABLED := true;
  OIDC_RP_INITIATED_LOGOUT_ALWAYS_PROMPT := false;
  OIDC_RSA_PRIVATE_KEY := "";
  OIDC_RSA_PRIVATE_KEYS_INACTIVE := [];
  OIDC_JWKS_MAX_AGE_SECONDS := 3600;
  OIDC_RESPONSE_TYPES_SUPPORTED := ["code"; "id_token"];
  OIDC_SUBJECT_TYPES_SUPPORTED := ["public"];
  OIDC_TOKEN_ENDPOINT_AUTH_METHODS_SUPPORTED :=
    ["client_secret_post"; "client_secret_basic"];
  ALLOWED_REDIRECT_URI_SCHEMES := ["http"; "https"];
  oidc_issuer := "https://idp.example/o"
|}.

Definition env : Collaborators := {|
  _load_id_token := λ hint,
    if bool_decide (hint = "token-alice") then Some token_alice
    else if bool_decide (hint = "token-bob") then Some token_bob
    else None;
  get_discovery_claims := ["sub"];
  get_available_scopes := ["openid"; "read"; "read"];
  application_rows := [app_abc; app_pub];
  urlparse_scheme := urlsplit_scheme;
  urlparse_netloc := λ _, "idp.example";
  add_params_to_uri := append_params;
  reverse := λ name, "/o/" +:+ name;
  build_absolute_uri := λ path, "https://idp.example" +:+ path;
  jwk_thumbprint := λ pem, "kid-" +:+ pem;
  jwk_export_public := λ pem, {[ "kty" := JStr "RSA" ]};
  status_code := λ _, 400%Z;
  OAuth2ResponseRedirect_raises := disallowed_redirect
|}.

(** A session in which [alice] is logged in and nothing has been called. *)
Definition world : World := {| request_user := alice; calls := [] |}.

End Example.

(** ** Reading documents and runs *)

(** The names of the entries of the JSON document of a response. *)
Definition json_keys (response : HttpResponse) : gset string :=
  match response with
  | JsonResponse data _ => dom data
  | _ => ∅
  end.

(** [m] raises only exceptions that satisfy [P]. *)
Definition raises_only {A} (P : Exception → Prop) (m : M A) : Prop :=
  ∀ w w' e, m w = (w', inl e) → P e.


(** Other deployments: one that always prompts, and one with an issuer
    override, a user-info endpoint of its own and RSA keys. *)
Module Variants.

Definition settings_always_prompt : Settings := {|
  OIDC_ISS_ENDPOINT := "";
  OIDC_USERINFO_ENDPOINT := "";
  OIDC_RP_INITIATED_LOGOUT_ENABLED := true;
  OIDC_RP_INITIATED_LOGOUT_ALWAYS_PROMPT := true;
  OIDC_RSA_PRIVATE_KEY := "";
  OIDC_RSA_PRIVATE_KEYS_INACTIVE := ["pem-old"];
  OIDC_JWKS_MAX_AGE_SECONDS := 3600;
  OIDC_RESPONSE_TYPES_SUPPORTED := ["code"];
  OIDC_SUBJECT_TYPES_SUPPORTED := ["public"];
  OIDC_TOKEN_ENDPOINT_AUTH_METHODS_SUPPORTED := ["client_secret_post"];
  ALLOWED_REDIRECT_URI_SCHEMES := ["http"; "https"];
  oidc_issuer := "https://idp.example/o"
|}.

Definition settings_issuer : Settings := {|
  OIDC_ISS_ENDPOINT := "https://sso.example/o";
  OIDC_USERINFO_ENDPOINT := "https://api.example/me";
  OIDC_RP_INITIATED_LOGOUT_ENABLED := false;
  OIDC_RP_INITIATED_LOGOUT_ALWAYS_PROMPT := false;
  OIDC_RSA_PRIVATE_KEY := "pem-new";
  OIDC_RSA_PRIVATE_KEYS_INACTIVE := ["pem-old"];
  OIDC_JWKS_MAX_AGE_SECONDS := 60;
  OIDC_RESPONSE_TYPES_SUPPORTED := ["code"];
  OIDC_SUBJECT_TYPES_SUPPORTED := ["public"];
  OIDC_TOKEN_ENDPOINT_AUTH_METHODS_SUPPORTED := ["client_secret_post"];
  ALLOWED_REDIRECT_URI_SCHEMES := ["https"];
  oidc_issuer := "https://idp.example/o"
|}.

(** The collaborators of [Example.env], with an issuer host of its own,
    claims listed twice, and keys whose export names its own [use]. *)
Definition env : Collaborators := {|
  _load_id_token := _load_id_token Example.env;
  get_discovery_claims := ["sub"; "email"; "sub"];
  get_available_scopes := ["openid"];
  application_rows := application_rows Example.env;
  urlparse_scheme := urlsplit_scheme;
  urlparse_netloc := λ _, "sso.example";
  add_params_to_uri := append_params;
  reverse := reverse Example.env;
  build_absolute_uri := build_absolute_uri Example.env;
  jwk_thumbprint := jwk_thumbprint Example.env;
  jwk_export_public := λ pem,
    <["kty" := JStr "RSA"]> (<["use" := JStr "enc"]> {[ "n" := JStr pem ]});
  status_code := status_code Example.env;
  OAuth2ResponseRedirect_raises := disallowed_redirect
|}.

(** A deployment that allows redirects to https only, reached over
    http. *)
Definition settings_https_only : Settings := {|
  OIDC_ISS_ENDPOINT := "";
  OIDC_USERINFO_ENDPOINT := "";
  OIDC_RP_INITIATED_LOGOUT_ENABLED := true;
  OIDC_RP_INITIATED_LOGOUT_ALWAYS_PROMPT := false;
  OIDC_RSA_PRIVATE_KEY := "";
  OIDC_RSA_PRIVATE_KEYS_INACTIVE := [];
  OIDC_JWKS_MAX_AGE_SECONDS := 3600;
  OIDC_RESPONSE_TYPES_SUPPORTED := ["code"];
  OIDC_SUBJECT_TYPES_SUPPORTED := ["public"];
  OIDC_TOKEN_ENDPOINT_AUTH_METHODS_SUPPORTED := ["client_secret_post"];
  ALLOWED_REDIRECT_URI_SCHEMES := ["https"];
  oidc_issuer := "http://testserver/o"
|}.

Definition env_http : Collaborators := {|
  _load_id_token := _load_id_token Example.env;
  get_discovery_claims := get_discovery_claims Example.env;
  get_available_scopes := get_available_scopes Example.env;
  application_rows := application_rows Example.env;
  urlparse_scheme := urlsplit_scheme;
  urlparse_netloc := λ _, "testserver";
  add_params_to_uri := append_params;
  reverse := reverse Example.env;
  build_absolute_uri := λ path, "http://testserver" +:+ path;
  jwk_thumbprint := jwk_thumbprint Example.env;
  jwk_export_public := jwk_export_public Example.env;
  status_code := status_code Example.env;
  OAuth2ResponseRedirect_raises := disallowed_redirect
|}.

End Variants.

(** ** Reasoning about the monad *)

Section MonadLemmas.
Context {A B : Type}.
Implicit Types (m : M A) (f : A → M B) (w : World).

Lemma bind_run m f w :
  (m ≫= f) w = match m w with
               | (w', inl e) => (w', inl e)
               | (w', inr a) => f a w'
               end.
Proof. reflexivity. Qed.

Lemma bind_inr_run m f w w1 a : m w = (w1, inr a) → (m ≫= f) w = f a w1.
Proof. intros H. rewrite bind_run, H. reflexivity. Qed.

Lemma bind_inl_run m f w w1 e : m w = (w1, inl e) → (m ≫= f) w = (w1, inl e).
Proof. intros H. rewrite bind_run, H. reflexivity. Qed.

Lemma bind_inv m f w w' r :
  (m ≫= f) w = (w', r) →
  (∃ e, m w = (w', inl e) ∧ r = inl e)
  ∨ (∃ a w1, m w = (w1, inr a) ∧ f a w1 = (w', r)).
Proof.
  rewrite bind_run. destruct (m w) as [w1 [e|a]]; intros H.
  - left. exists e. by inversion H.
  - right. by exists a, w1.
Qed.

Lemma bind_inr_inv m f w w' b :
  (m ≫= f) w = (w', inr b) →
  ∃ a w1, m w = (w1, inr a) ∧ f a w1 = (w', inr b).
Proof.
  intros [(e & _ & [=]) | H]%bind_inv. exact H.
Qed.

Lemma fmap_inr_inv (g : A → B) m w w' b :
  (g <$> m) w = (w', inr b) → ∃ a, m w = (w', inr a) ∧ b = g a.
Proof.
  intros (a & w1 & Hm & [= <- <-])%bind_inr_inv. by exists a.
Qed.

End MonadLemmas.

Lemma ret_inr_inv {A} (a b : A) (w w' : World) :
  (mret a : M A) w = (w', inr b) → w' = w ∧ b = a.
Proof. by intros [= -> ->]. Qed.

Lemma raise_if_inr_inv c e w w' u :
  raise_if c e w = (w', inr u) → c = false ∧ w' = w.
Proof. destruct c; [discriminate | by intros [= ->]]. Qed.

(** Inversion of a successful run, one monadic step at a time. *)
Ltac monad_inv_step :=
  match goal with
  | H : mbind _ _ _ = (_, inr _) |- _ =>
      let a := fresh "a" in let w := fresh "w" in let Hm := fresh "Hrun" in
      destruct (bind_inr_inv _ _ _ _ _ H) as (a & w & Hm & ?); clear H;
      cbn beta iota in *
  | H : fmap _ _ _ = (_, inr _) |- _ =>
      let a := fresh "a" in
      destruct (fmap_inr_inv _ _ _ _ _ H) as (a & ? & ?); clear H
  | H : mret _ _ = (_, inr _) |- _ =>
      destruct (ret_inr_inv _ _ _ _ H); clear H
  | H : raise _ _ = (_, inr _) |- _ => discriminate H
  | H : raise_if _ _ _ = (_, inr _) |- _ =>
      destruct (raise_if_inr_inv _ _ _ _ _ H); clear H
  | H : (if ?c then _ else _) _ = (_, inr _) |- _ => destruct c eqn:?
  | H : (match ?x with _ => _ end) _ = (_, inr _) |- _ => destruct x eqn:?
  end.

Ltac monad_inv := repeat monad_inv_step; subst.

(** The truth value of a request value is that of its text. *)
Lemma truthy_str_value (v : option string) : truthy v = nonempty (str_value v).
Proof. by destruct v as [[|c s]|]. Qed.

(** ** The logout request validator *)

Section Validator.
Context (oauth2_settings : Settings) (env : Collaborators).

#[local] Abbreviation validate := (validate_logout_request oauth2_settings env).

Lemma load_id_token_run hint w :
  load_id_token env hint w
  = (called w [CallLoadIdToken hint], inr (_load_id_token env hint)).
Proof. reflexivity. Qed.

(** What a successful validation says about its arguments. *)
Lemma validate_logout_request_success user hint cid uri w w' prompt ruri app :
  validate user hint cid uri w = (w', inr (prompt, (ruri, app))) →
  ∃ id_token must_prompt_logout,
    (if truthy hint
     then ∃ tok, _load_id_token env (str_value hint) = Some tok
                 ∧ id_token = Some tok
                 ∧ must_prompt_logout
                   = (if bool_decide (IDToken.user tok = user) then false else true)
     else id_token = None ∧ must_prompt_logout = true)
    ∧ prompt = must_prompt_logout
               || OIDC_RP_INITIATED_LOGOUT_ALWAYS_PROMPT oauth2_settings
    ∧ ruri = uri
    ∧ (if truthy cid then is_Some app
       else app = IDToken.application <$> id_token)
    ∧ (truthy uri = true → is_Some app).
Proof.
  unfold validate_logout_request. intros H.
  apply bind_inr_inv in H as ([id_token must] & w1 & Htok & H). cbn beta iota in H.
  apply bind_inr_inv in H as (application & w2 & Happ & H).
  apply bind_inr_inv in H as ([] & w3 & Huri & [= <- <- <- <-]).
  exists id_token, must. repeat split.
  - destruct (truthy hint); [|by injection Htok as [= _ <- <-]].
    rewrite bind_run, load_id_token_run in Htok.
    destruct (_load_id_token env (str_value hint)) as [tok|]; [|discriminate].
    exists tok. monad_inv; by simplify_eq.
  - clear Htok Huri. destruct (truthy cid); monad_inv; by simplify_eq.
  - intros Hu. rewrite Hu in Huri. by destruct application.
Qed.

(** C1: the prompt flag of a validated request is false exactly when a
    hint was supplied, it loaded as an ID token of the current user, and
    [OIDC_RP_INITIATED_LOGOUT_ALWAYS_PROMPT] is off; otherwise it is true. *)
Theorem validate_prompt_flag user hint cid uri w w' prompt ruri app :
  validate user hint cid uri w = (w', inr (prompt, (ruri, app))) →
  let proven :=
    truthy hint = true
    ∧ (∃ tok, _load_id_token env (str_value hint) = Some tok
              ∧ IDToken.user tok = user)
    ∧ OIDC_RP_INITIATED_LOGOUT_ALWAYS_PROMPT oauth2_settings = false in
  (prompt = false ↔ proven) ∧ (¬ proven → prompt = true).
Proof.
  intros (id_token & must & Htok & -> & _)%validate_logout_request_success proven.
  assert (must || OIDC_RP_INITIATED_LOGOUT_ALWAYS_PROMPT oauth2_settings = false
          ↔ proven) as Hiff.
  { unfold proven. rewrite orb_false_iff. destruct (truthy hint).
    - destruct Htok as (tok & Hload & -> & ->). rewrite Hload. split.
      + intros [Hm ?]. case_bool_decide; [|discriminate]. eauto.
      + intros (_ & (tok' & [= <-] & Hu) & ?). by rewrite bool_decide_true.
    - destruct Htok as [-> ->]. split; intros [[=] _]. }
  split; [exact Hiff|].
  intros Hn. apply not_false_iff_true. by rewrite Hiff.
Qed.

(** C2: a client_id supplied together with a hint whose token was issued
    to another client is refused with [ClientIdMissmatch]; only the
    token was loaded by then. *)
Theorem validate_client_id_mismatch user hint cid uri w tok :
  truthy hint = true →
  truthy cid = true →
  _load_id_token env (str_value hint) = Some tok →
  Application.client_id (IDToken.application tok) ≠ str_value cid →
  validate user hint cid uri w
  = (called w [CallLoadIdToken (str_value hint)], inl (OIDC ClientIdMissmatch)).
Proof.
  intros Hh Hc Hload Hne. unfold validate_logout_request.
  rewrite Hh, Hc. apply bind_inl_run.
  rewrite bind_run, load_id_token_run, Hload.
  apply bind_inl_run. by rewrite bool_decide_true.
Qed.

(** C3: a validated request that carries a redirect URI carries its
    client too; and a redirect URI sent with neither hint nor client_id is
    refused with [InvalidOIDCClientError], before anything is looked up. *)
Theorem validate_redirect_requires_client user hint cid uri w :
  (∀ w' prompt ruri app,
     validate user hint cid uri w = (w', inr (prompt, (ruri, app))) →
     truthy ruri = true → is_Some app)
  ∧ (truthy uri = true → truthy hint = false → truthy cid = false →
     validate user hint cid uri w = (w, inl (OIDC InvalidOIDCClientError))).
Proof.
  split.
  - intros w' prompt ruri app
      (id_token & must & _ & _ & -> & _ & Happ)%validate_logout_request_success.
    exact Happ.
  - intros Hu Hh Hc. unfold validate_logout_request.
    rewrite Hh, Hc, Hu. reflexivity.
Qed.

(** The two ways in which a request resolves its client: by the row of
    its client_id, or else by the application of its token. *)
Lemma validate_resolves_client_id user hint cid w app :
  truthy hint = false →
  truthy cid = true →
  filter (λ a, Application.client_id a = str_value cid) (application_rows env) = [app] →
  validate user hint cid None w
  = (called w [CallObjectsGet (str_value cid)], inr (true, (None, Some app))).
Proof.
  intros Hh Hc Hrows. unfold validate_logout_request, objects_get.
  rewrite Hh, Hc. rewrite (bind_run (mret _)). cbn [mret M_ret].
  unfold fmap, M_fmap. rewrite !bind_run. cbn [call]. by rewrite Hrows.
Qed.

Lemma validate_resolves_token user hint cid w tok :
  truthy hint = true →
  truthy cid = false →
  _load_id_token env (str_value hint) = Some tok →
  validate user hint cid None w
  = (called w [CallLoadIdToken (str_value hint)],
     inr ((if bool_decide (IDToken.user tok = user) then false else true)
          || OIDC_RP_INITIATED_LOGOUT_ALWAYS_PROMPT oauth2_settings,
          (None, Some (IDToken.application tok)))).
Proof.
  intros Hh Hc Hload. unfold validate_logout_request.
  rewrite Hh, Hc. rewrite !bind_run, load_id_token_run, Hload. reflexivity.
Qed.

(** C4: when the request without its redirect URI validates and resolves
    the client [app], a redirect URI of scheme http is refused for a
    client that is not confidential, right after the scheme is parsed:
    neither the allowed schemes nor the registered URIs are consulted. *)
Theorem validate_http_public_client user hint cid uri w w1 prompt app :
  validate user hint cid None w = (w1, inr (prompt, (None, Some app))) →
  truthy uri = true →
  urlparse_scheme env (str_value uri) = "http" →
  Application.client_type app ≠ "confidential" →
  validate user hint cid uri w
  = (called w1 [CallUrlparse (str_value uri)],
     inl (OIDC (InvalidOIDCRedirectURIError
                  "http is only allowed with confidential clients."))).
Proof.
  unfold validate_logout_request. intros H Hu Hscheme Htype.
  apply bind_inr_inv in H as ([id_token must] & wa & Htok & H). cbn beta iota in H.
  apply bind_inr_inv in H as (application & wb & Happ & [= -> _ ->]).
  rewrite (bind_inr_run _ _ _ _ _ Htok). cbn beta iota.
  rewrite (bind_inr_run _ _ _ _ _ Happ), Hu.
  apply bind_inl_run. rewrite bind_run. unfold urlparse_0.
  rewrite bind_run. cbn [call]. cbv beta iota. rewrite Hscheme.
  cbn [mret M_ret nonempty negb raise_if]. rewrite bind_run. cbn [mret M_ret].
  apply bind_inl_run. by rewrite !bool_decide_true.
Qed.

(** C10: empty strings for the three parameters are treated as missing
    ones: nothing is looked up or parsed, nothing is raised, the prompt
    flag is true whatever the settings, and no client is resolved. *)
Theorem validate_empty_strings user w :
  validate user (Some "") (Some "") (Some "") w = (w, inr (true, (Some "", None)))
  ∧ validate user None None None w = (w, inr (true, (None, None)))
  ∧ truthy (Some "") = truthy None.
Proof. repeat split. Qed.

End Validator.

(** ** The session is only touched by [logout] *)

Lemma session_intact_refl w : session_intact w w.
Proof.
  split; [done|]. exists []. rewrite app_nil_r. split; [done|]. apply not_elem_of_nil.
Qed.

Lemma session_intact_trans w1 w2 w3 :
  session_intact w1 w2 → session_intact w2 w3 → session_intact w1 w3.
Proof.
  intros [Hu1 (cs1 & Hc1 & Hn1)] [Hu2 (cs2 & Hc2 & Hn2)]. split; [congruence|].
  exists (cs1 ++ cs2)%list. split.
  - by rewrite Hc2, Hc1, app_assoc.
  - rewrite elem_of_app. tauto.
Qed.

Lemma session_intact_called w c : c ≠ CallLogout → session_intact w (called w [c]).
Proof.
  intros Hc. split; [done|]. exists [c]. split; [done|].
  rewrite list_elem_of_singleton. congruence.
Qed.

(** The two outcomes exclude each other. *)
Lemma logged_out_not_intact w w1 : session_intact w w1 → ¬ session_intact w (logged_out w1).
Proof.
  intros [_ (cs & Hcs & _)] [_ (cs' & Hcs' & Hn)]. apply Hn.
  cbn in Hcs'. rewrite Hcs, <- app_assoc in Hcs'. apply app_inv_head in Hcs'.
  subst cs'. rewrite elem_of_app, list_elem_of_singleton. by right.
Qed.

Lemma preserves_ret {A} (a : A) : preserves_session (mret a : M A).
Proof. intros w w' r [= <- _]. apply session_intact_refl. Qed.

Lemma preserves_raise {A} (e : Exception) : preserves_session (raise e : M A).
Proof. intros w w' r [= <- _]. apply session_intact_refl. Qed.

Section Preservation.
Context {A B : Type}.

Lemma preserves_bind (m : M A) (f : A → M B) :
  preserves_session m → (∀ a, preserves_session (f a)) → preserves_session (m ≫= f).
Proof.
  intros Hm Hf w w' r [(e & Hrun & _) | (a & w1 & Hrun & Hk)]%bind_inv.
  - by eapply Hm.
  - eapply session_intact_trans; [by eapply Hm | by eapply Hf].
Qed.

Lemma preserves_fmap (g : A → B) (m : M A) :
  preserves_session m → preserves_session (g <$> m).
Proof. intros Hm. apply preserves_bind; [done|]. intros a. apply preserves_ret. Qed.

Lemma preserves_try (m : M A) (h : OIDCError → M A) :
  preserves_session m → (∀ error, preserves_session (h error)) →
  preserves_session (try_except_OIDCError m h).
Proof.
  intros Hm Hh w w' r. unfold try_except_OIDCError.
  destruct (m w) as [w1 [[error| | | |class_name]|a]] eqn:Hrun; intros Hr.
  2-6: injection Hr as [= <- _]; by eapply Hm.
  eapply session_intact_trans; [by eapply Hm | by eapply Hh].
Qed.

End Preservation.

Lemma preserves_call c : c ≠ CallLogout → preserves_session (call c).
Proof. intros Hc w w' r [= <- _]. by apply session_intact_called. Qed.

Lemma preserves_raise_if c e : preserves_session (raise_if c e).
Proof. destruct c; [apply preserves_raise | apply preserves_ret]. Qed.

Lemma preserves_current_user : preserves_session current_user.
Proof. intros w w' r [= <- _]. apply session_intact_refl. Qed.

Create HintDb session discriminated.
#[export] Hint Resolve preserves_ret preserves_raise preserves_bind preserves_fmap
  preserves_try preserves_raise_if preserves_current_user : session.
#[export] Hint Extern 1 (preserves_session (call _)) =>
  apply preserves_call; discriminate : session.

(** Composition of the rules above, splitting on every branch. *)
Ltac session_frame :=
  repeat match goal with
  | |- preserves_session (if ?c then _ else _) => destruct c
  | |- preserves_session (match ?x with _ => _ end) => destruct x
  | |- preserves_session (mbind _ _) => apply preserves_bind
  | |- preserves_session (fmap _ _) => apply preserves_fmap
  | |- preserves_session _ => solve [eauto with session]
  | |- ?G => lazymatch G with
             | preserves_session _ => fail
             | _ => intros ?
             end
  end.

Lemma validate_preserves_session oauth2_settings env user hint cid uri :
  preserves_session (validate_logout_request oauth2_settings env user hint cid uri).
Proof.
  unfold validate_logout_request, load_id_token, objects_get, urlparse_0.
  session_frame.
Qed.

(** ** The logout view *)

Section LogoutView.
Context (oauth2_settings : Settings) (env : Collaborators).

#[local] Abbreviation validate := (validate_logout_request oauth2_settings env).
#[local] Abbreviation do_logout' := (do_logout oauth2_settings env).

(** The outcome of the constructor call. *)
Lemma new_OAuth2ResponseRedirect_run redirect_to allowed_schemes w :
  new_OAuth2ResponseRedirect env redirect_to allowed_schemes w
  = (w, match OAuth2ResponseRedirect_raises env redirect_to allowed_schemes with
        | Some class_name => inl (Raised class_name)
        | None => inr (OAuth2ResponseRedirect redirect_to allowed_schemes)
        end).
Proof.
  unfold new_OAuth2ResponseRedirect.
  by destruct (OAuth2ResponseRedirect_raises env redirect_to allowed_schemes).
Qed.

(** [do_logout] with the client that a redirect URI needs: the session
    is ended and the redirect response is built, or refused. *)
Lemma do_logout_run application uri state w :
  (truthy uri = true → is_Some application) →
  ∃ redirect_to allowed_schemes,
    do_logout' application uri state w
    = new_OAuth2ResponseRedirect env redirect_to allowed_schemes (logged_out w).
Proof.
  intros Happ. unfold do_logout. rewrite bind_run. cbn [logout].
  destruct (truthy uri).
  - destruct Happ as [app ->]; [done|]. destruct (truthy state); by eexists _, _.
  - by eexists _, _.
Qed.

(** The outcomes of [do_logout] after a validation: the session is
    ended, and either a redirect is returned or the refusal of the
    constructor is raised. *)
Lemma do_logout_outcome application uri state w :
  (truthy uri = true → is_Some application) →
  ∃ r, do_logout' application uri state w = (logged_out w, r)
    ∧ ((∃ redirect_to allowed_schemes,
          r = inr (OAuth2ResponseRedirect redirect_to allowed_schemes))
       ∨ (∃ class_name, r = inl (Raised class_name))).
Proof.
  intros Happ. destruct (do_logout_run application uri state w Happ) as (t & sc & ->).
  rewrite new_OAuth2ResponseRedirect_run.
  eexists. split; [done|].
  destruct (OAuth2ResponseRedirect_raises env t sc); [right|left]; eauto.
Qed.

(** C5: at the termination step reached after a validation, the session
    is ended and the redirect response is built for this target: the
    validated URI with [state] added to its query when both are there,
    the validated URI alone when there is no state, both under the
    client's allowed schemes, and the application root, under
    [ALLOWED_REDIRECT_URI_SCHEMES], when there is no redirect URI.  The
    response is the outcome unless its constructor refuses the target. *)
Theorem do_logout_redirect user hint cid uri state w0 w prompt ruri application :
  validate user hint cid uri w0 = (w, inr (prompt, (ruri, application))) →
  let redirect redirect_to allowed_schemes :=
    (logged_out w,
     match OAuth2ResponseRedirect_raises env redirect_to allowed_schemes with
     | Some class_name => inl (Raised class_name)
     | None => inr (OAuth2ResponseRedirect redirect_to allowed_schemes)
     end) in
  ruri = uri
  ∧ (truthy ruri = true → truthy state = true →
     ∃ app, application = Some app
       ∧ do_logout' application ruri state w
         = redirect
             (add_params_to_uri env (str_value ruri) [("state", str_value state)])
             (Application.get_allowed_schemes app))
  ∧ (truthy ruri = true → truthy state = false →
     ∃ app, application = Some app
       ∧ do_logout' application ruri state w
         = redirect (str_value ruri) (Application.get_allowed_schemes app))
  ∧ (truthy ruri = false →
     do_logout' application ruri state w
     = redirect (build_absolute_uri env "/")
         (ALLOWED_REDIRECT_URI_SCHEMES oauth2_settings)).
Proof.
  intros (_ & _ & _ & _ & -> & _ & Happ)%validate_logout_request_success redirect.
  subst redirect. cbn beta.
  split; [done|]. unfold do_logout. rewrite !bind_run. cbn [logout].
  repeat split.
  - intros Hu Hs. destruct (Happ Hu) as [app ->]. exists app.
    rewrite Hu, Hs. by rewrite <- new_OAuth2ResponseRedirect_run.
  - intros Hu Hs. destruct (Happ Hu) as [app ->]. exists app.
    rewrite Hu, Hs. by rewrite <- new_OAuth2ResponseRedirect_run.
  - intros Hu. rewrite Hu. by rewrite <- new_OAuth2ResponseRedirect_run.
Qed.

(** [get], by the outcome of the validation. *)
Lemma get_run GET w :
  get oauth2_settings env GET w
  = match validate (request_user w) (GET !! "id_token_hint") (GET !! "client_id")
            (GET !! "post_logout_redirect_uri") w with
    | (w1, inl (OIDC error)) => (w1, inr (error_response env error))
    | (w1, inl e) => (w1, inl e)
    | (w1, inr (prompt, (redirect_uri, application))) =>
        if negb prompt
        then do_logout' application redirect_uri (GET !! "state") w1
        else
          (w1, inr (TemplateResponse
                      (ConfirmContext
                         (get_initial
                            (list_to_map [
                               ("id_token_hint", GET !! "id_token_hint");
                               ("client_id", GET !! "client_id");
                               ("post_logout_redirect_uri",
                                GET !! "post_logout_redirect_uri");
                               ("state", GET !! "state")]))
                         application) 200))
    end.
Proof.
  unfold get. rewrite bind_run. cbn [current_user]. rewrite bind_run.
  unfold try_except_OIDCError at 1. unfold fmap, M_fmap. rewrite bind_run.
  destruct (validate _ _ _ _ w) as [w1 [[error| | | |class_name]|[prompt [ruri app]]]];
    try done.
  cbn [mret M_ret]. by destruct prompt.
Qed.

(** [form_valid], by the outcome of the validation. *)
Lemma form_valid_run form w :
  form_valid oauth2_settings env form w
  = match validate (request_user w) (cleaned_data form !! "id_token_hint")
            (cleaned_data form !! "client_id")
            (cleaned_data form !! "post_logout_redirect_uri") w with
    | (w1, inl (OIDC error)) => (w1, inr (error_response env error))
    | (w1, inl e) => (w1, inl e)
    | (w1, inr (prompt, (redirect_uri, application))) =>
        if negb prompt || cleaned_allow form
        then
          match do_logout' application redirect_uri (cleaned_data form !! "state") w1 with
          | (w2, inl (OIDC error)) => (w2, inr (error_response env error))
          | run => run
          end
        else (w1, inr (error_response env LogoutDenied))
    end.
Proof.
  unfold form_valid. rewrite bind_run. cbn [current_user].
  unfold try_except_OIDCError. rewrite bind_run.
  destruct (validate _ _ _ _ w) as [w1 [[error| | | |class_name]|[prompt [ruri app]]]];
    try done.
  cbn beta iota. by destruct (negb prompt || cleaned_allow form).
Qed.

(** [form_valid] hands on what [do_logout] gives after a validation. *)
Lemma form_valid_do_logout application uri state w :
  (truthy uri = true → is_Some application) →
  match do_logout' application uri state w with
  | (w2, inl (OIDC error)) => (w2, inr (error_response env error))
  | run => run
  end = do_logout' application uri state w.
Proof.
  intros Happ.
  by destruct (do_logout_outcome application uri state w Happ)
    as (r & -> & [(t & sc & ->) | (class_name & ->)]).
Qed.

(** C6: where the session ends in the two entry points of the logout
    view.  The validation leaves the session intact.  When it raises an
    [OIDCError], the answer is the error page of that error with its
    status, in the world the validation left; when it raises something
    else, the world is still the one it left.  When it passes, the GET
    either shows the confirmation form, in that same world, or runs
    [do_logout], and the submission either answers the [LogoutDenied]
    page, in that same world, or runs [do_logout]; only then is the
    session ended, whatever [do_logout] then returns or raises. *)
Theorem logout_view_session_atomic GET form w :
  (let '(w1, validated) :=
     validate (request_user w) (GET !! "id_token_hint") (GET !! "client_id")
       (GET !! "post_logout_redirect_uri") w in
   session_intact w w1
   ∧ match validated with
     | inl (OIDC error) =>
         get oauth2_settings env GET w
         = (w1, inr (TemplateResponse (ErrorContext error) (status_code env error)))
     | inl _ => ∃ r, get oauth2_settings env GET w = (w1, r)
     | inr (true, (_, application)) =>
         ∃ initial,
           get oauth2_settings env GET w
           = (w1, inr (TemplateResponse (ConfirmContext initial application) 200))
     | inr (false, (redirect_uri, application)) =>
         ∃ r, get oauth2_settings env GET w = (logged_out w1, r)
           ∧ do_logout' application redirect_uri (GET !! "state") w1
             = (logged_out w1, r)
     end)
  ∧ (let '(w1, validated) :=
       validate (request_user w) (cleaned_data form !! "id_token_hint")
         (cleaned_data form !! "client_id")
         (cleaned_data form !! "post_logout_redirect_uri") w in
     session_intact w w1
     ∧ match validated with
       | inl (OIDC error) =>
           form_valid oauth2_settings env form w
           = (w1, inr (TemplateResponse (ErrorContext error) (status_code env error)))
       | inl _ => ∃ r, form_valid oauth2_settings env form w = (w1, r)
       | inr (prompt, (redirect_uri, application)) =>
           if negb prompt || cleaned_allow form
           then ∃ r, form_valid oauth2_settings env form w = (logged_out w1, r)
                  ∧ do_logout' application redirect_uri
                      (cleaned_data form !! "state") w1
                    = (logged_out w1, r)
           else form_valid oauth2_settings env form w
                = (w1, inr (TemplateResponse (ErrorContext LogoutDenied)
                              (status_code env LogoutDenied)))
       end).
Proof.
  split.
  - rewrite get_run.
    destruct (validate _ _ _ _ w) as [w1 [e|[prompt [ruri app]]]] eqn:Hrun;
      pose proof (validate_preserves_session _ _ _ _ _ _ _ _ _ Hrun) as Hint.
    + split; [done|]. destruct e; eauto.
    + split; [done|]. destruct prompt; cbn [negb]; [eauto|].
      apply validate_logout_request_success
        in Hrun as (_ & _ & _ & _ & -> & _ & Happ).
      destruct (do_logout_outcome app _ (GET !! "state") w1 Happ) as (r & -> & _).
      eauto.
  - rewrite form_valid_run.
    destruct (validate _ _ _ _ w) as [w1 [e|[prompt [ruri app]]]] eqn:Hrun;
      pose proof (validate_preserves_session _ _ _ _ _ _ _ _ _ Hrun) as Hint.
    + split; [done|]. destruct e; eauto.
    + split; [done|]. destruct (negb prompt || cleaned_allow form); [|done].
      apply validate_logout_request_success
        in Hrun as (_ & _ & _ & _ & -> & _ & Happ).
      rewrite (form_valid_do_logout app _ _ w1 Happ).
      destruct (do_logout_outcome app _ (cleaned_data form !! "state") w1 Happ)
        as (r & -> & _).
      eauto.
Qed.

(** A client_id that names no row: the exception of the object manager
    is not an [OIDCError], so [get] raises it instead of answering. *)
Lemma get_unknown_client_id GET w :
  truthy (GET !! "id_token_hint") = false →
  truthy (GET !! "client_id") = true →
  filter (λ a, Application.client_id a = str_value (GET !! "client_id"))
    (application_rows env) = [] →
  get oauth2_settings env GET w
  = (called w [CallObjectsGet (str_value (GET !! "client_id"))], inl DoesNotExist).
Proof.
  intros Hh Hc Hrows. rewrite get_run. unfold validate_logout_request.
  rewrite Hh, Hc. cbn beta iota. rewrite (bind_run (mret _)). cbn [mret M_ret].
  rewrite (bind_inl_run _ _ _ (called w [CallObjectsGet (str_value (GET !! "client_id"))])
             DoesNotExist); [done|].
  unfold fmap, M_fmap, objects_get. apply bind_inl_run.
  rewrite bind_run. cbn [call]. by rewrite Hrows.
Qed.

End LogoutView.

(** An [OIDCError] of the validation is answered with its error page, in
    both entry points. *)
Lemma logout_view_renders_OIDCError oauth2_settings env GET form w w1 error :
  (validate_logout_request oauth2_settings env (request_user w)
     (GET !! "id_token_hint") (GET !! "client_id")
     (GET !! "post_logout_redirect_uri") w = (w1, inl (OIDC error)) →
   get oauth2_settings env GET w = (w1, inr (error_response env error)))
  ∧ (validate_logout_request oauth2_settings env (request_user w)
       (cleaned_data form !! "id_token_hint") (cleaned_data form !! "client_id")
       (cleaned_data form !! "post_logout_redirect_uri") w = (w1, inl (OIDC error)) →
     form_valid oauth2_settings env form w = (w1, inr (error_response env error))).
Proof.
  split; intros Hrun; [rewrite get_run | rewrite form_valid_run]; by rewrite Hrun.
Qed.

(** C7: a GET whose client_id matches no registered application is not
    answered with an error page: [DoesNotExist] leaves the view. *)
Example get_unknown_client_id_raises :
  get Example.settings Example.env {[ "client_id" := "nobody" ]} Example.world
  = (called Example.world [CallObjectsGet "nobody"], inl DoesNotExist).
Proof. by apply get_unknown_client_id. Qed.

(** ** Discovery and JWKS documents *)

Lemma append_assoc (s1 s2 s3 : string) : (s1 +:+ s2) +:+ s3 = s1 +:+ (s2 +:+ s3).
Proof.
  induction s1 as [|c s1 IH]; [done|].
  change (String c ((s1 +:+ s2) +:+ s3) = String c (s1 +:+ (s2 +:+ s3))).
  by f_equal.
Qed.

(** C8: whatever the configured age, the value of the Cache-Control
    header of the JWKS response is the header's name and a colon followed
    by the four directives, not the directives alone. *)
Theorem jwks_cache_control_value oauth2_settings env :
  let age := pretty (OIDC_JWKS_MAX_AGE_SECONDS oauth2_settings) in
  let directives :=
    "public, max-age=" +:+ age +:+ ", stale-while-revalidate=" +:+ age
    +:+ ", stale-if-error=" +:+ age in
  header "Cache-Control" (JwksInfoView_get oauth2_settings env)
  = Some ("Cache-Control: " +:+ directives)
  ∧ header "Cache-Control" (JwksInfoView_get oauth2_settings env) ≠ Some directives.
Proof.
  intros age directives.
  assert (header "Cache-Control" (JwksInfoView_get oauth2_settings env)
          = Some ("Cache-Control: " +:+ directives)) as ->.
  { unfold JwksInfoView_get, header. rewrite lookup_insert_eq. f_equal.
    unfold jwks_cache_control, directives. fold age.
    rewrite !append_assoc. reflexivity. }
  split; [done|]. intros [=].
Qed.

(** C9: [scopes_supported] is the list of the scopes backend as it is,
    in its order and with its repetitions. *)
Theorem discovery_scopes_supported oauth2_settings env :
  json_field "scopes_supported" (ConnectDiscoveryInfoView_get oauth2_settings env)
  = Some (JStrs (get_available_scopes env)).
Proof.
  unfold ConnectDiscoveryInfoView_get, json_field.
  rewrite list_fmap_id.
  destruct (negb (nonempty (OIDC_ISS_ENDPOINT oauth2_settings)));
    destruct (OIDC_RP_INITIATED_LOGOUT_ENABLED oauth2_settings);
    cbn beta iota zeta; rewrite ?lookup_insert_ne by done; reflexivity.
Qed.

(** X17: the signing algorithms of the document: RS256 first when an RSA
    key is configured, HS256 always. *)
Lemma discovery_signing_algorithms oauth2_settings env :
  json_field "id_token_signing_alg_values_supported"
    (ConnectDiscoveryInfoView_get oauth2_settings env)
  = Some (JStrs (if nonempty (OIDC_RSA_PRIVATE_KEY oauth2_settings)
                 then ["RS256"; "HS256"] else ["HS256"])).
Proof.
  unfold ConnectDiscoveryInfoView_get, json_field.
  destruct (negb (nonempty (OIDC_ISS_ENDPOINT oauth2_settings)));
    destruct (OIDC_RP_INITIATED_LOGOUT_ENABLED oauth2_settings);
    cbn beta iota zeta; rewrite ?lookup_insert_ne by done; reflexivity.
Qed.

(** C9, as first stated, fails: a scope that the backend lists twice is
    listed twice in the document. *)
Lemma discovery_scopes_not_deduplicated :
  get_available_scopes Example.env = ["openid"; "read"; "read"]
  ∧ json_field "scopes_supported"
      (ConnectDiscoveryInfoView_get Example.settings Example.env)
    = Some (JStrs ["openid"; "read"; "read"])
  ∧ ¬ NoDup ["openid"; "read"; "read"].
Proof.
  split; [reflexivity|]. split; [reflexivity|].
  rewrite !NoDup_cons. intros (_ & Hin & _). apply Hin. by left.
Qed.

(** ** The theorems on the concrete deployment *)

Module Run.
Import Example.

#[local] Abbreviation validate := (validate_logout_request settings env).

(** C1 at a request of [alice] with her own token: no prompt. *)
Lemma validate_prompt_flag_witness :
  validate alice (Some "token-alice") None None world
  = (called world [CallLoadIdToken "token-alice"],
     inr (false, (None, Some app_abc)))
  ∧ (truthy (Some "token-alice") = true
     ∧ (∃ tok, _load_id_token env "token-alice" = Some tok
               ∧ IDToken.user tok = alice)
     ∧ OIDC_RP_INITIATED_LOGOUT_ALWAYS_PROMPT settings = false).
Proof.
  split; [reflexivity|].
  apply (proj1 (proj1 (validate_prompt_flag settings env alice
                         (Some "token-alice") None None world
                         (called world [CallLoadIdToken "token-alice"])
                         false None (Some app_abc) eq_refl))).
  reflexivity.
Defined.

(** C2 at a token of client [pub] sent with client_id [abc]. *)
Lemma validate_client_id_mismatch_witness :
  _load_id_token env "token-bob" = Some token_bob
  ∧ Application.client_id (IDToken.application token_bob) ≠ "abc"
  ∧ validate alice (Some "token-bob") (Some "abc")
      (Some "https://app.example/done") world
    = (called world [CallLoadIdToken "token-bob"], inl (OIDC ClientIdMissmatch)).
Proof.
  split; [reflexivity|]. split; [discriminate|].
  apply (validate_client_id_mismatch settings env alice (Some "token-bob")
           (Some "abc") (Some "https://app.example/done") world token_bob);
    [reflexivity | reflexivity | reflexivity | discriminate].
Defined.

(** C3, as first stated, fails: with a hint that does not load and no
    client_id, nothing resolves a client for the redirect URI, and the
    error is [InvalidIDTokenError]. *)
Lemma validate_invalid_hint_not_InvalidClient :
  truthy (Some "https://app.example/done") = true
  ∧ _load_id_token env "garbage" = None
  ∧ validate alice (Some "garbage") None (Some "https://app.example/done") world
    = (called world [CallLoadIdToken "garbage"], inl (OIDC InvalidIDTokenError))
  ∧ validate alice (Some "garbage") None (Some "https://app.example/done") world
    ≠ (called world [CallLoadIdToken "garbage"], inl (OIDC InvalidOIDCClientError)).
Proof. repeat split. discriminate. Qed.

(** C3 at a redirect URI sent with client_id [abc], and sent alone. *)
Lemma validate_redirect_requires_client_witness :
  validate alice None (Some "abc") (Some "https://app.example/done") world
  = (called world [CallObjectsGet "abc"; CallUrlparse "https://app.example/done"],
     inr (true, (Some "https://app.example/done", Some app_abc)))
  ∧ is_Some (Some app_abc)
  ∧ validate alice None None (Some "https://app.example/done") world
    = (world, inl (OIDC InvalidOIDCClientError)).
Proof.
  split; [reflexivity|]. split.
  - apply (proj1 (validate_redirect_requires_client settings env alice None
                    (Some "abc") (Some "https://app.example/done") world)
             _ true (Some "https://app.example/done") (Some app_abc) eq_refl).
    reflexivity.
  - apply (proj2 (validate_redirect_requires_client settings env alice None
                    None (Some "https://app.example/done") world));
      reflexivity.
Defined.

(** C4 at the public client [pub] and its registered http URI. *)
Lemma validate_http_public_client_witness :
  Application.post_logout_redirect_uri_allowed app_pub "http://pub.example/bye" = true
  ∧ "http" ∈ Application.get_allowed_schemes app_pub
  ∧ validate alice None (Some "pub") (Some "http://pub.example/bye") world
    = (called world [CallObjectsGet "pub"; CallUrlparse "http://pub.example/bye"],
       inl (OIDC (InvalidOIDCRedirectURIError
                    "http is only allowed with confidential clients."))).
Proof.
  split; [reflexivity|]. split; [by left|].
  apply (validate_http_public_client settings env alice None (Some "pub")
           (Some "http://pub.example/bye") world
           (called world [CallObjectsGet "pub"]) true app_pub);
    [reflexivity | reflexivity | reflexivity | discriminate].
Defined.

(** C5 at the confirmed logout of client [abc] with a state. *)
Lemma do_logout_redirect_witness :
  let w := called world [CallObjectsGet "abc"; CallUrlparse "https://app.example/done"] in
  validate alice None (Some "abc") (Some "https://app.example/done") world
  = (w, inr (true, (Some "https://app.example/done", Some app_abc)))
  ∧ do_logout settings env (Some app_abc) (Some "https://app.example/done")
      (Some "xyz") w
    = (logged_out w,
       inr (OAuth2ResponseRedirect "https://app.example/done?state=xyz"
              ["http"; "https"])).
Proof.
  intros w. split; [reflexivity|].
  destruct (do_logout_redirect settings env alice None (Some "abc")
              (Some "https://app.example/done") (Some "xyz") world w true
              (Some "https://app.example/done") (Some app_abc) eq_refl)
    as (_ & Hstate & _).
  destruct (Hstate eq_refl eq_refl) as (app & Happ & Hrun).
  rewrite Hrun. injection Happ as <-. reflexivity.
Defined.

(** C6, as first stated, fails: where redirects are allowed to https only
    and the application root is an http address, the GET of [alice] with
    her own token passes the validation, ends her session, and then
    fails, the redirect to the root being refused: a failing path that
    returns no response and has ended the session. *)
Lemma logout_fails_after_session_end :
  let w1 := called world [CallLoadIdToken "token-alice"] in
  validate_logout_request Variants.settings_https_only Variants.env_http alice
    (Some "token-alice") None None world
  = (w1, inr (false, (None, Some app_abc)))
  ∧ get Variants.settings_https_only Variants.env_http
      {[ "id_token_hint" := "token-alice" ]} world
    = (logged_out w1, inl (Raised "DisallowedRedirect"))
  ∧ ¬ session_intact world (logged_out w1).
Proof.
  intros w1. split; [reflexivity|]. split; [reflexivity|].
  intros (_ & cs & Hcalls & Hcs). apply Hcs.
  cbn in Hcalls. rewrite <- Hcalls. set_solver.
Qed.

(** A request without parameters: prompt, no client, no redirect URI. *)
Example validate_no_parameters :
  validate alice None None None world = (world, inr (true, (None, None))).
Proof. reflexivity. Qed.

(** A GET with the token of the logged-in user: the session ends at once
    and the redirect goes to the application root. *)
Example get_with_own_token :
  get settings env {[ "id_token_hint" := "token-alice" ]} world
  = (logged_out (called world [CallLoadIdToken "token-alice"]),
     inr (OAuth2ResponseRedirect "https://idp.example/" ["http"; "https"])).
Proof. reflexivity. Qed.

(** A GET that names a client and its registered URI, without token: the
    confirmation form is shown with that client, the session stays. *)
Example get_with_client_id :
  get settings env
    (<["client_id" := "abc"]>
       {[ "post_logout_redirect_uri" := "https://app.example/done" ]}) world
  = (called world [CallObjectsGet "abc"; CallUrlparse "https://app.example/done"],
     inr (TemplateResponse
            (ConfirmContext
               (list_to_map [
                  ("id_token_hint", None);
                  ("logout_hint", None);
                  ("client_id", Some "abc");
                  ("post_logout_redirect_uri", Some "https://app.example/done");
                  ("state", None);
                  ("ui_locales", None)])
               (Some app_abc))
            200)).
Proof. reflexivity. Qed.

(** The scenarios of the confirmation form: refused, the session stays;
    allowed, it ends and the redirect carries the state. *)
Example form_valid_denied :
  form_valid settings env
    {| cleaned_data := {[ "client_id" := "abc" ]}; cleaned_allow := false |} world
  = (called world [CallObjectsGet "abc"],
     inr (TemplateResponse (ErrorContext LogoutDenied) 400)).
Proof. reflexivity. Qed.

Example form_valid_allowed :
  form_valid settings env
    {| cleaned_data :=
         <["client_id" := "abc"]>
           (<["post_logout_redirect_uri" := "https://app.example/done"]>
              {[ "state" := "xyz" ]});
       cleaned_allow := true |} world
  = (logged_out (called world [CallObjectsGet "abc";
                               CallUrlparse "https://app.example/done"]),
     inr (OAuth2ResponseRedirect "https://app.example/done?state=xyz"
            ["http"; "https"])).
Proof. reflexivity. Qed.

End Run.

(** ** Further properties of the validator *)


Section CallsWithin.
Context {A B : Type}.




End CallsWithin.






Lemma raise_inl_inv {A} e e' (w w' : World) :
  (raise e : M A) w = (w', inl e') → w' = w ∧ e' = e.
Proof. by intros [= <- <-]. Qed.

Lemma raise_if_inl_inv c e e' w w' :
  raise_if c e w = (w', inl e') → c = true ∧ w' = w ∧ e' = e.
Proof. destruct c; [by intros [= <- <-] | discriminate]. Qed.

Lemma call_inv c (w w' : World) r : call c w = (w', r) → w' = called w [c] ∧ r = inr tt.
Proof. by intros [= <- <-]. Qed.

(** Inversion of any run, failed or not, one monadic step at a time. *)
Ltac monad_inv_any_step :=
  match goal with
  | H : call _ _ = (_, _) |- _ => destruct (call_inv _ _ _ _ H); clear H
  | H : mret _ _ = (_, inl _) |- _ => discriminate H
  | H : raise _ _ = (_, inl _) |- _ => destruct (raise_inl_inv _ _ _ _ H); clear H
  | H : raise_if _ _ _ = (_, inl _) |- _ =>
      destruct (raise_if_inl_inv _ _ _ _ _ H) as (? & ? & ?); clear H
  | H : mbind _ _ _ = (_, inl _) |- _ =>
      let Hm := fresh "Hrun" in
      destruct (bind_inv _ _ _ _ _ H) as [(? & Hm & ?) | (? & ? & Hm & ?)]; clear H;
      cbn beta iota in *
  | H : fmap _ _ _ = (_, inl _) |- _ => unfold fmap, M_fmap in H
  | H : (if ?c then _ else _) _ = (_, inl _) |- _ => destruct c eqn:?
  | H : (match ?x with _ => _ end) _ = (_, inl _) |- _ => destruct x eqn:?
  | _ => monad_inv_step
  end.

Ltac monad_inv_any := repeat monad_inv_any_step; simplify_eq.

Section MoreValidator.
Context (oauth2_settings : Settings) (env : Collaborators).

#[local] Abbreviation validate := (validate_logout_request oauth2_settings env).


(** X2: a hint that the token store does not accept is refused with
    [InvalidIDTokenError], whatever the client_id and the redirect URI;
    nothing else is looked up. *)
Theorem validate_invalid_hint user hint cid uri w :
  truthy hint = true →
  _load_id_token env (str_value hint) = None →
  validate user hint cid uri w
  = (called w [CallLoadIdToken (str_value hint)], inl (OIDC InvalidIDTokenError)).
Proof.
  intros Hh Hload. unfold validate_logout_request. rewrite Hh.
  apply bind_inl_run. rewrite bind_run, load_id_token_run, Hload. reflexivity.
Qed.

(** X3: the redirect URI of a validated request has passed every check
    against the client returned with it: it has a scheme, the scheme is
    among the client's allowed ones and is http only for a confidential
    client, and the client allows the URI. *)
Theorem validate_redirect_checked user hint cid uri w w' prompt ruri application :
  validate user hint cid uri w = (w', inr (prompt, (ruri, application))) →
  truthy ruri = true →
  ∃ app, application = Some app
    ∧ urlparse_scheme env (str_value ruri) ≠ ""
    ∧ (urlparse_scheme env (str_value ruri) = "http" →
       Application.client_type app = "confidential")
    ∧ urlparse_scheme env (str_value ruri) ∈ Application.get_allowed_schemes app
    ∧ Application.post_logout_redirect_uri_allowed app (str_value ruri) = true.
Proof.
  unfold validate_logout_request. intros H Hu.
  apply bind_inr_inv in H as ([id_token must] & w1 & _ & H). cbn beta iota in H.
  apply bind_inr_inv in H as (application' & w2 & _ & H).
  apply bind_inr_inv in H as ([] & w3 & Huri & [= <- <- <- <-]).
  rewrite Hu in Huri. destruct application' as [app|]; [|discriminate].
  exists app. split; [done|]. unfold urlparse_0 in Huri. monad_inv_any.
  repeat match goal with
         | H : negb _ = false |- _ => apply negb_false_iff in H
         | H : bool_decide _ = false |- _ => apply bool_decide_eq_false in H
         | H : _ && _ = false |- _ => apply andb_false_iff in H
         end.
  repeat split.
  - by intros Hs; rewrite Hs in *.
  - intros Hs. destruct (decide (Application.client_type app = "confidential")) as [|Hn];
      [done|]. exfalso.
    match goal with
    | H : bool_decide _ = false ∨ bool_decide _ = false |- _ =>
        destruct H as [H|H]; apply bool_decide_eq_false in H; tauto
    end.
  - match goal with
    | H : ¬ (_ ∉ _) |- _ => by apply dec_stable in H
    end.
  - done.
Qed.

(** X4: the client of a validated request.  With a client_id it is the
    one registered application of that client_id, and a token sent along
    was issued to the same client_id; without a client_id it is the
    application of the token, and there is none without a token. *)
Theorem validate_resolved_client user hint cid uri w w' prompt ruri application :
  validate user hint cid uri w = (w', inr (prompt, (ruri, application))) →
  (truthy cid = true →
   ∃ app, application = Some app
     ∧ Application.client_id app = str_value cid
     ∧ app ∈ application_rows env
     ∧ (∀ a, a ∈ application_rows env →
             Application.client_id a = str_value cid → a = app)
     ∧ (truthy hint = true →
        ∃ tok, _load_id_token env (str_value hint) = Some tok
               ∧ Application.client_id (IDToken.application tok) = str_value cid))
  ∧ (truthy cid = false →
     if truthy hint
     then ∃ tok, _load_id_token env (str_value hint) = Some tok
                 ∧ application = Some (IDToken.application tok)
     else application = None).
Proof.
  unfold validate_logout_request. intros H.
  apply bind_inr_inv in H as ([id_token must] & w1 & Htok & H). cbn beta iota in H.
  apply bind_inr_inv in H as (application' & w2 & Happ & H).
  apply bind_inr_inv in H as ([] & w3 & _ & [= <- <- <- <-]).
  unfold objects_get, load_id_token in *.
  split; intros Hc; rewrite Hc in Happ, Htok.
  - monad_inv_any.
    all: match goal with
         | H : filter _ _ = [?a] |- _ => rename H into Hrows; exists a
         end.
    all: assert (∀ a, a ∈ filter (λ a, Application.client_id a = str_value cid)
                            (application_rows env)
                      ↔ Application.client_id a = str_value cid
                        ∧ a ∈ application_rows env)
           as Hfilter by (intros a0; by rewrite list_elem_of_filter).
    all: rewrite Hrows in Hfilter; setoid_rewrite list_elem_of_singleton in Hfilter.
    all: destruct (proj1 (Hfilter _) eq_refl) as [Hid Hin].
    all: split; [done|]; split; [done|]; split; [done|]; split;
      [intros a Ha Hida; by apply (proj2 (Hfilter a))|].
    all: intros Hh; try congruence.
    match goal with
    | H : bool_decide _ = false |- _ =>
        apply bool_decide_eq_false, dec_stable in H; eauto
    end.
  - destruct (truthy hint); monad_inv_any; eauto.
Qed.

(** The run with a redirect URI, from the run without it. *)
Lemma validate_redirect_run user hint cid uri w w1 prompt app :
  validate user hint cid None w = (w1, inr (prompt, (None, Some app))) →
  truthy uri = true →
  let scheme := urlparse_scheme env (str_value uri) in
  validate user hint cid uri w
  = (called w1 [CallUrlparse (str_value uri)],
     if negb (nonempty scheme) then
       inl (OIDC (InvalidOIDCRedirectURIError
                    "A Scheme is required for the redirect URI."))
     else if bool_decide (scheme = "http")
             && bool_decide (Application.client_type app ≠ "confidential") then
       inl (OIDC (InvalidOIDCRedirectURIError
                    "http is only allowed with confidential clients."))
     else if bool_decide (scheme ∉ Application.get_allowed_schemes app) then
       inl (OIDC (InvalidOIDCRedirectURIError
                    ("Redirect to scheme " +:+ String.String (ascii_of_nat 34) scheme
                     +:+ String.String (ascii_of_nat 34) " is not permitted.")))
     else if negb (Application.post_logout_redirect_uri_allowed app (str_value uri)) then
       inl (OIDC (InvalidOIDCRedirectURIError
                    "This client does not have this redirect uri registered."))
     else inr (prompt, (uri, Some app))).
Proof.
  intros H Hu scheme. unfold validate_logout_request in *.
  apply bind_inr_inv in H as ([id_token must] & wa & Htok & H). cbn beta iota in H.
  apply bind_inr_inv in H as (application & wb & Happ & [= -> <- ->]).
  rewrite (bind_inr_run _ _ _ _ _ Htok). cbn beta iota.
  rewrite (bind_inr_run _ _ _ _ _ Happ), Hu.
  unfold urlparse_0. rewrite !bind_run. cbn [call mret M_ret]. fold scheme.
  destruct (negb (nonempty scheme)); [done|]. cbn [raise_if mret M_ret].
  destruct (bool_decide (scheme = "http")
            && bool_decide (Application.client_type app ≠ "confidential")); [done|].
  cbn [raise_if mret M_ret].
  destruct (bool_decide (scheme ∉ Application.get_allowed_schemes app)); [done|].
  cbn [raise_if mret M_ret].
  by destruct (negb (Application.post_logout_redirect_uri_allowed app (str_value uri))).
Qed.

(** X5: the redirect URI is checked after, and apart from, the rest of
    the request.  When the request without it validates with client
    [app], a run with it that returns gives the same prompt flag and
    client, with the URI, after one more call, the parse of the URI; and
    a run that raises [InvalidOIDCRedirectURIError] carries the message
    of the first check that fails: no scheme, http for a client that is
    not confidential, a scheme that the client does not allow, a URI that
    the client does not allow. *)
Theorem validate_redirect_decision user hint cid uri w w1 w2 prompt app r :
  validate user hint cid None w = (w1, inr (prompt, (None, Some app))) →
  truthy uri = true →
  validate user hint cid uri w = (w2, r) →
  let scheme := urlparse_scheme env (str_value uri) in
  match r with
  | inr (prompt', (ruri, application)) =>
      w2 = called w1 [CallUrlparse (str_value uri)]
      ∧ prompt' = prompt ∧ ruri = uri ∧ application = Some app
  | inl (OIDC (InvalidOIDCRedirectURIError description)) =>
      w2 = called w1 [CallUrlparse (str_value uri)]
      ∧ description
        = (if negb (nonempty scheme) then
             "A Scheme is required for the redirect URI."
           else if bool_decide (scheme = "http")
                   && bool_decide (Application.client_type app ≠ "confidential") then
             "http is only allowed with confidential clients."
           else if bool_decide (scheme ∉ Application.get_allowed_schemes app) then
             "Redirect to scheme " +:+ String.String (ascii_of_nat 34) scheme
             +:+ String.String (ascii_of_nat 34) " is not permitted."
           else "This client does not have this redirect uri registered.")
  | inl _ => True
  end.
Proof.
  intros Hnone Hu Hrun scheme.
  rewrite (validate_redirect_run _ _ _ _ _ _ _ _ Hnone Hu) in Hrun. cbv zeta in Hrun.
  fold scheme in Hrun. injection Hrun as <- <-.
  destruct (negb (nonempty scheme)); [done|].
  destruct (bool_decide (scheme = "http")
            && bool_decide (Application.client_type app ≠ "confidential")); [done|].
  destruct (bool_decide (scheme ∉ Application.get_allowed_schemes app)); [done|].
  by destruct (negb (Application.post_logout_redirect_uri_allowed app (str_value uri))).
Qed.

(** X6: every [OIDCError] of the validator with its cause.
    [InvalidIDTokenError] comes from a hint that does not load,
    [ClientIdMissmatch] from a loaded token of another client_id than the
    one sent, [InvalidOIDCClientError] from a redirect URI sent with
    neither hint nor client_id, [InvalidOIDCRedirectURIError] from a
    redirect URI; [LogoutDenied] is never raised here. *)
Theorem validate_exception_causes user hint cid uri w w' error :
  validate user hint cid uri w = (w', inl (OIDC error)) →
  match error with
  | InvalidIDTokenError =>
      truthy hint = true ∧ _load_id_token env (str_value hint) = None
  | ClientIdMissmatch =>
      truthy hint = true ∧ truthy cid = true
      ∧ ∃ tok, _load_id_token env (str_value hint) = Some tok
               ∧ Application.client_id (IDToken.application tok) ≠ str_value cid
  | InvalidOIDCClientError =>
      truthy uri = true ∧ truthy hint = false ∧ truthy cid = false
  | InvalidOIDCRedirectURIError _ => truthy uri = true
  | LogoutDenied => False
  end.
Proof.
  intros H. unfold validate_logout_request in H.
  apply bind_inv in H as [(e1 & Htok & He) | ([id_token must] & w1 & Htok & H)].
  { (* the hint *)
    injection He as <-.
    destruct (truthy hint) eqn:Hh; [|discriminate].
    rewrite bind_run, load_id_token_run in Htok.
    destruct (_load_id_token env (str_value hint)) as [tok|] eqn:Hload.
    - destruct (truthy cid) eqn:Hc; [|discriminate].
      rewrite bind_run in Htok.
      destruct (bool_decide _) eqn:Hne in Htok; [|discriminate].
      injection Htok as [= _ <-]. apply bool_decide_eq_true in Hne. eauto.
    - by injection Htok as [= _ <-]. }
  cbn beta iota in H.
  apply bind_inv in H as [(e1 & Happ & He) | (application & w2 & Happ & H)].
  { (* the row of the client_id: no [OIDCError] *)
    injection He as <-.
    destruct (truthy cid) eqn:Hc; [|discriminate].
    unfold fmap, M_fmap, objects_get in Happ. rewrite !bind_run in Happ.
    cbn [call] in Happ.
    by destruct (filter _ _) as [|a [|b rest]] in Happ. }
  apply bind_inv in H as [(e1 & Huri & He) | ([] & w3 & _ & [=])].
  (* the redirect URI *)
  injection He as <-.
  destruct (truthy uri) eqn:Hu; [|discriminate].
  destruct application as [app|].
  - unfold urlparse_0 in Huri. rewrite !bind_run in Huri. cbn [call mret M_ret] in Huri.
    repeat match type of Huri with
           | context [raise_if ?c _] =>
               destruct c; cbn [raise_if raise mret M_ret] in Huri;
               [by injection Huri as [= _ <-]|]
           end.
    discriminate.
  - injection Huri as [= _ <-]. split; [done|].
    destruct (truthy cid) eqn:Hc.
    + unfold fmap, M_fmap in Happ. rewrite bind_run in Happ.
      by destruct (objects_get env (str_value cid) w1) as [? [|]].
    + injection Happ as [= _ Hnone]. destruct id_token; [discriminate|].
      destruct (truthy hint); [|done].
      rewrite bind_run, load_id_token_run in Htok.
      destruct (_load_id_token env (str_value hint)); [|discriminate].
      rewrite bind_run in Htok. cbv [mret M_ret] in Htok. discriminate.
Qed.

End MoreValidator.

(** ** Further properties of the logout view *)

Section RaisesOnly.
Context {A B : Type} (P : Exception → Prop).

Lemma raises_only_bind (m : M A) (f : A → M B) :
  raises_only P m → (∀ a, raises_only P (f a)) → raises_only P (m ≫= f).
Proof.
  intros Hm Hf w w' e [(e' & Hrun & [= <-]) | (a & w1 & Hrun & Hk)]%bind_inv.
  - by eapply Hm.
  - by eapply Hf.
Qed.

Lemma raises_only_fmap (g : A → B) (m : M A) :
  raises_only P m → raises_only P (g <$> m).
Proof. intros Hm. apply raises_only_bind; [done|]. by intros a w w' e. Qed.

Lemma raises_only_ret (a : A) : raises_only P (mret a : M A).
Proof. by intros w w' e. Qed.

Lemma raises_only_raise e : P e → raises_only P (raise e : M A).
Proof. by intros He w w' e' [= _ <-]. Qed.

End RaisesOnly.

Lemma raises_only_raise_if P c e : P e → raises_only P (raise_if c e).
Proof. intros He. destruct c; [by apply raises_only_raise | apply raises_only_ret]. Qed.

Lemma raises_only_call P c : raises_only P (call c).
Proof. by intros w w' e. Qed.

(** The validator raises an [OIDCError] or an exception of the row
    lookup. *)
Lemma validate_raises_only oauth2_settings env user hint cid uri :
  raises_only
    (λ e, (∃ error, e = OIDC error) ∨ e = DoesNotExist ∨ e = MultipleObjectsReturned)
    (validate_logout_request oauth2_settings env user hint cid uri).
Proof.
  unfold validate_logout_request, load_id_token, objects_get, urlparse_0.
  repeat match goal with
  | |- raises_only _ (if ?c then _ else _) => destruct c
  | |- raises_only _ (match ?x with _ => _ end) => destruct x
  | |- raises_only _ (mbind _ _) => apply raises_only_bind
  | |- raises_only _ (fmap _ _) => apply raises_only_fmap
  | |- raises_only _ (mret _) => apply raises_only_ret
  | |- raises_only _ (call _) => apply raises_only_call
  | |- raises_only _ (raise_if _ _) => apply raises_only_raise_if
  | |- raises_only _ (raise _) => apply raises_only_raise
  | |- ?G => lazymatch G with
             | raises_only _ _ => fail
             | _ ∨ _ => fail
             | _ => intros ?
             end
  end.
  all: eauto.
Qed.

Section MoreLogoutView.
Context (oauth2_settings : Settings) (env : Collaborators).

#[local] Abbreviation validate := (validate_logout_request oauth2_settings env).


(** X8: with the always-prompt setting on, no GET ends the session,
    whatever token it carries. *)
Theorem get_always_prompt GET w w' r :
  OIDC_RP_INITIATED_LOGOUT_ALWAYS_PROMPT oauth2_settings = true →
  get oauth2_settings env GET w = (w', r) →
  session_intact w w'
  ∧ ∀ redirect_to allowed_schemes,
      r ≠ inr (OAuth2ResponseRedirect redirect_to allowed_schemes).
Proof.
  intros Halways. rewrite get_run.
  destruct (validate _ _ _ _ w) as [w1 [e|[prompt [ruri app]]]] eqn:Hrun;
    pose proof (validate_preserves_session _ _ _ _ _ _ _ _ _ Hrun) as Hint.
  { destruct e as [error| | | |class_name]; by intros [= <- <-]. }
  apply validate_logout_request_success in Hrun as (_ & must & _ & -> & _).
  rewrite Halways, orb_true_r. by intros [= <- <-].
Qed.

(** X9: the [allow] box cannot stand in for the validation: two
    submissions with the same fields that fail the validation get the
    same answer, whatever their [allow]. *)
Theorem form_valid_allow_after_validation form1 form2 w w1 e :
  cleaned_data form1 = cleaned_data form2 →
  validate (request_user w) (cleaned_data form1 !! "id_token_hint")
    (cleaned_data form1 !! "client_id")
    (cleaned_data form1 !! "post_logout_redirect_uri") w = (w1, inl e) →
  form_valid oauth2_settings env form1 w = form_valid oauth2_settings env form2 w
  ∧ form_valid oauth2_settings env form1 w
    = (w1, match e with
           | OIDC error => inr (error_response env error)
           | _ => inl e
           end).
Proof.
  intros Hdata Hrun. rewrite !form_valid_run, <- Hdata, Hrun.
  split; [done|]. by destruct e.
Qed.

(** X10: after a validation that passes, the confirmation runs
    [do_logout] when no prompt is needed or [allow] is checked: the
    session is ended, and the answer is the redirect, or the refusal of
    its constructor is raised.  Otherwise it answers the [LogoutDenied]
    page, with that error's status, and leaves the session as the
    validation left it. *)
Theorem form_valid_confirmation form w w1 prompt ruri application :
  validate (request_user w) (cleaned_data form !! "id_token_hint")
    (cleaned_data form !! "client_id")
    (cleaned_data form !! "post_logout_redirect_uri") w
  = (w1, inr (prompt, (ruri, application))) →
  if negb prompt || cleaned_allow form
  then ∃ r, form_valid oauth2_settings env form w = (logged_out w1, r)
         ∧ do_logout oauth2_settings env application ruri
             (cleaned_data form !! "state") w1 = (logged_out w1, r)
         ∧ ((∃ redirect_to allowed_schemes,
               r = inr (OAuth2ResponseRedirect redirect_to allowed_schemes))
            ∨ (∃ class_name, r = inl (Raised class_name)))
  else form_valid oauth2_settings env form w
       = (w1, inr (TemplateResponse (ErrorContext LogoutDenied)
                     (status_code env LogoutDenied))).
Proof.
  intros Hrun. rewrite form_valid_run, Hrun.
  destruct (negb prompt || cleaned_allow form); [|done].
  apply validate_logout_request_success in Hrun as (_ & _ & _ & _ & -> & _ & Happ).
  rewrite (form_valid_do_logout oauth2_settings env application _ _ w1 Happ).
  destruct (do_logout_outcome oauth2_settings env application _
              (cleaned_data form !! "state") w1 Happ) as (r & -> & Hr).
  by exists r.
Qed.

(** The validator reads its three parameters through their truth value
    and their text only, and hands the redirect URI back as it was
    given. *)
Lemma validate_str_value user hint hint' cid cid' uri uri' w :
  str_value hint = str_value hint' →
  str_value cid = str_value cid' →
  str_value uri = str_value uri' →
  validate user hint cid uri w
  = match validate user hint' cid' uri' w with
    | (w1, inr (prompt, (_, application))) => (w1, inr (prompt, (uri, application)))
    | run => run
    end.
Proof.
  intros Hh Hc Hu. unfold validate_logout_request.
  rewrite !truthy_str_value, Hh, Hc, Hu.
  rewrite !(bind_run _ _ w).
  match goal with |- context [match ?m w with _ => _ end] =>
    destruct (m w) as [w1 [e|[id_token must]]]; [done|] end.
  cbn beta iota. rewrite !(bind_run _ _ w1).
  match goal with |- context [match ?m w1 with _ => _ end] =>
    destruct (m w1) as [w2 [e|application]]; [done|] end.
  rewrite !(bind_run _ _ w2).
  match goal with |- context [match ?m w2 with _ => _ end] =>
    by destruct (m w2) as [w3 [e|[]]] end.
Qed.

(** [do_logout] reads the redirect URI and the state through their truth
    value and their text only. *)
Lemma do_logout_str_value application uri uri' state state' w :
  str_value uri = str_value uri' →
  str_value state = str_value state' →
  do_logout oauth2_settings env application uri state w
  = do_logout oauth2_settings env application uri' state' w.
Proof.
  intros Hu Hs. unfold do_logout. by rewrite !truthy_str_value, Hu, Hs.
Qed.

(** X11: the two entry points agree.  Whenever a GET is answered without
    the confirmation form, a submission whose four fields hold the text
    of the GET's parameters, with the empty text for a parameter that was
    not sent, gets the same answer, with the same effect on the
    session. *)
Theorem form_valid_agrees_with_get GET form w w' r :
  (∀ key, key ∈ ["id_token_hint"; "client_id"; "post_logout_redirect_uri"; "state"] →
          str_value (cleaned_data form !! key) = str_value (GET !! key)) →
  get oauth2_settings env GET w = (w', r) →
  (∀ initial application status,
     r ≠ inr (TemplateResponse (ConfirmContext initial application) status)) →
  form_valid oauth2_settings env form w = (w', r).
Proof.
  intros Hkeys. rewrite get_run, form_valid_run.
  rewrite (validate_str_value _ (cleaned_data form !! "id_token_hint")
             (GET !! "id_token_hint") _ (GET !! "client_id")
             _ (GET !! "post_logout_redirect_uri"))
    by (apply Hkeys; rewrite !elem_of_cons; tauto).
  destruct (validate _ (GET !! _) _ _ w) as [w1 [e|[prompt [ruri app]]]] eqn:Hrun.
  { by destruct e. }
  destruct prompt; cbn [negb orb].
  { intros [= <- <-] Hform. by edestruct Hform. }
  apply validate_logout_request_success in Hrun as (_ & _ & _ & _ & -> & _ & Happ).
  rewrite (do_logout_str_value app (cleaned_data form !! "post_logout_redirect_uri")
             (GET !! "post_logout_redirect_uri")
             (cleaned_data form !! "state") (GET !! "state"))
    by (apply Hkeys; rewrite !elem_of_cons; tauto).
  by rewrite (form_valid_do_logout oauth2_settings env app _ _ w1 Happ).
Qed.

(** X12: the confirmation form of a GET.  It comes with status 200 and
    the session intact, and is filled with the four parameters as they
    were sent; [logout_hint] and [ui_locales] are in it but always empty,
    also when the request carries them. *)
Theorem get_confirmation_form GET w w' initial application status :
  get oauth2_settings env GET w = (w', inr (TemplateResponse (ConfirmContext initial application) status)) →
  status = 200%Z
  ∧ session_intact w w'
  ∧ initial = list_to_map [
      ("id_token_hint", GET !! "id_token_hint");
      ("logout_hint", None);
      ("client_id", GET !! "client_id");
      ("post_logout_redirect_uri", GET !! "post_logout_redirect_uri");
      ("state", GET !! "state");
      ("ui_locales", None)].
Proof.
  rewrite get_run.
  destruct (validate _ _ _ _ w) as [w1 [e|[prompt [ruri app]]]] eqn:Hrun;
    pose proof (validate_preserves_session _ _ _ _ _ _ _ _ _ Hrun) as Hint.
  { by destruct e. }
  destruct prompt; cbn [negb].
  - by intros [= <- <- <- <-].
  - apply validate_logout_request_success in Hrun as (_ & _ & _ & _ & -> & _ & Happ).
    by destruct (do_logout_outcome oauth2_settings env app _ (GET !! "state") w1 Happ)
      as (r & -> & [(t & sc & ->) | (class_name & ->)]).
Qed.

(** X13: [do_logout] ends the session first, whatever follows.  Called
    with a redirect URI and no application it raises, with the session
    already ended; without a state what it raises is the
    [AttributeError] of the call on [None]. *)
Theorem do_logout_ends_session_first application uri state w :
  ∃ r, do_logout oauth2_settings env application uri state w = (logged_out w, r)
    ∧ (truthy uri = true → application = None → ∃ e, r = inl e)
    ∧ (truthy uri = true → application = None → truthy state = false →
       r = inl AttributeError).
Proof.
  unfold do_logout. rewrite bind_run. cbn [logout].
  destruct (truthy uri).
  - destruct application as [app|].
    + destruct (truthy state); rewrite bind_run; cbn [get_allowed_schemes_of mret M_ret];
        rewrite new_OAuth2ResponseRedirect_run; eexists; (split; [reflexivity|]);
        by split.
    + destruct (truthy state); eexists; (split; [reflexivity|]); split; eauto; done.
  - rewrite new_OAuth2ResponseRedirect_run. eexists. split; [reflexivity|]. by split.
Qed.

(** X14: no [OIDCError] leaves the logout view: an exception that a GET
    or a submission raises is of another class. *)
Theorem logout_view_exceptions GET form w w' e :
  get oauth2_settings env GET w = (w', inl e) ∨ form_valid oauth2_settings env form w = (w', inl e) →
  ∀ error, e ≠ OIDC error.
Proof.
  rewrite get_run, form_valid_run. intros [H|H] error ->.
  - destruct (validate _ _ _ _ w) as [w1 [e1|[prompt [ruri app]]]] eqn:Hrun.
    + by destruct e1.
    + apply validate_logout_request_success
        in Hrun as (_ & _ & _ & _ & -> & _ & Happ).
      destruct prompt; [discriminate|]. cbn [negb] in H.
      by destruct (do_logout_outcome oauth2_settings env app _ (GET !! "state") w1 Happ)
        as (r & Hd & [(t & sc & ->) | (class_name & ->)]); rewrite Hd in H.
  - destruct (validate _ _ _ _ w) as [w1 [e1|[prompt [ruri app]]]] eqn:Hrun.
    + by destruct e1.
    + apply validate_logout_request_success
        in Hrun as (_ & _ & _ & _ & -> & _ & Happ).
      destruct (negb prompt || cleaned_allow form); [|discriminate].
      by destruct (do_logout_outcome oauth2_settings env app _
                     (cleaned_data form !! "state") w1 Happ)
        as (r & Hd & [(t & sc & ->) | (class_name & ->)]); rewrite Hd in H.
Qed.

(** X22: a GET whose validation fails.  An [OIDCError] is answered with
    the error page of that error and its status; any other exception is
    raised on; in both cases nothing is called after the validation. *)
Theorem get_after_failed_validation GET w w1 e :
  validate (request_user w) (GET !! "id_token_hint") (GET !! "client_id")
    (GET !! "post_logout_redirect_uri") w = (w1, inl e) →
  get oauth2_settings env GET w
  = (w1, match e with
         | OIDC error =>
             inr (TemplateResponse (ErrorContext error) (status_code env error))
         | _ => inl e
         end).
Proof.
  intros Hrun. rewrite get_run, Hrun. by destruct e.
Qed.

End MoreLogoutView.

(** ** Further properties of the documents *)

Section MoreDocuments.
Context (oauth2_settings : Settings) (env : Collaborators).

#[local] Abbreviation discovery := (ConnectDiscoveryInfoView_get oauth2_settings env).
#[local] Abbreviation jwks := (JwksInfoView_get oauth2_settings env).

(** X15: the discovery document has the eleven entries of the metadata
    and, only when RP-initiated logout is enabled, [end_session_endpoint];
    it is served to every origin. *)
Theorem discovery_document_entries :
  json_keys discovery
  = list_to_set [
      "issuer"; "authorization_endpoint"; "token_endpoint"; "userinfo_endpoint";
      "jwks_uri"; "scopes_supported"; "response_types_supported";
      "subject_types_supported"; "id_token_signing_alg_values_supported";
      "token_endpoint_auth_methods_supported"; "claims_supported"]
    ∪ (if OIDC_RP_INITIATED_LOGOUT_ENABLED oauth2_settings
       then {[ "end_session_endpoint" ]} else ∅)
  ∧ header "Access-Control-Allow-Origin" discovery = Some "*".
Proof.
  unfold ConnectDiscoveryInfoView_get, json_keys, header.
  destruct (negb (nonempty (OIDC_ISS_ENDPOINT oauth2_settings)));
    destruct (OIDC_RP_INITIATED_LOGOUT_ENABLED oauth2_settings);
    cbn beta iota zeta; (split; [|by rewrite lookup_insert_eq]);
    rewrite ?dom_insert_L, dom_list_to_map_L; cbn [fmap list_fmap fst];
    apply set_eq; intros key; set_solver.
Qed.

(** X16: where the endpoints of the document come from.  With an issuer
    override the issuer is the override and every endpoint is the
    scheme and host of the override followed by the path of the route,
    so that nothing depends on the request; without it the issuer is
    [oidc_issuer(request)] and the endpoints are absolute URIs of the
    request.  A configured user-info endpoint replaces the route's in
    both cases. *)
Theorem discovery_endpoints :
  let override := nonempty (OIDC_ISS_ENDPOINT oauth2_settings) in
  let absolute (route : string) :=
    if override
    then urlparse_scheme env (OIDC_ISS_ENDPOINT oauth2_settings) +:+ "://"
         +:+ urlparse_netloc env (OIDC_ISS_ENDPOINT oauth2_settings)
         +:+ reverse env route
    else build_absolute_uri env (reverse env route) in
  json_field "issuer" discovery
  = Some (JStr (if override then OIDC_ISS_ENDPOINT oauth2_settings
                else oidc_issuer oauth2_settings))
  ∧ json_field "authorization_endpoint" discovery
    = Some (JStr (absolute "oauth2_provider:authorize"))
  ∧ json_field "token_endpoint" discovery
    = Some (JStr (absolute "oauth2_provider:token"))
  ∧ json_field "jwks_uri" discovery
    = Some (JStr (absolute "oauth2_provider:jwks-info"))
  ∧ json_field "userinfo_endpoint" discovery
    = Some (JStr (if nonempty (OIDC_USERINFO_ENDPOINT oauth2_settings)
                  then OIDC_USERINFO_ENDPOINT oauth2_settings
                  else absolute "oauth2_provider:user-info"))
  ∧ json_field "end_session_endpoint" discovery
    = (if OIDC_RP_INITIATED_LOGOUT_ENABLED oauth2_settings
       then Some (JStr (absolute "oauth2_provider:rp-initiated-logout"))
       else None).
Proof.
  intros override absolute. subst override absolute.
  unfold ConnectDiscoveryInfoView_get, json_field, str_or.
  destruct (nonempty (OIDC_ISS_ENDPOINT oauth2_settings));
    destruct (OIDC_RP_INITIATED_LOGOUT_ENABLED oauth2_settings);
    cbn beta iota zeta delta [negb]; rewrite ?append_assoc;
    repeat split;
    rewrite ?lookup_insert_eq, ?lookup_insert_ne by done; reflexivity.
Qed.

(** X18: [claims_supported] lists every claim of the validator once, and
    nothing else. *)
Theorem discovery_claims_supported :
  ∃ claims, json_field "claims_supported" discovery = Some (JStrs claims)
    ∧ NoDup claims
    ∧ ∀ claim, claim ∈ claims ↔ claim ∈ get_discovery_claims env.
Proof.
  exists (elements (list_to_set (get_discovery_claims env) : gset string)).
  split; [|split].
  - unfold ConnectDiscoveryInfoView_get, json_field.
    destruct (negb (nonempty (OIDC_ISS_ENDPOINT oauth2_settings)));
      destruct (OIDC_RP_INITIATED_LOGOUT_ENABLED oauth2_settings);
      cbn beta iota zeta; rewrite ?lookup_insert_ne by done; reflexivity.
  - apply NoDup_elements.
  - intros claim. by rewrite elem_of_elements, elem_of_list_to_set.
Qed.

(** X19: without an active RSA key the key set is empty, also when
    inactive keys are configured. *)
Theorem jwks_without_active_key :
  OIDC_RSA_PRIVATE_KEY oauth2_settings = "" →
  json_field "keys" jwks = Some (JList []).
Proof.
  intros Hkey. unfold JwksInfoView_get, json_field. rewrite Hkey.
  cbn [nonempty]. by rewrite lookup_singleton_eq.
Qed.

(** X20: with an active RSA key the key set has one entry per key, the
    active key first and then the inactive ones in their order.  An entry
    holds every field of the key's public export, with the exported
    value, and [alg], [use] and [kid] with RS256, sig and the key's
    thumbprint wherever the export does not name them. *)
Theorem jwks_entries :
  nonempty (OIDC_RSA_PRIVATE_KEY oauth2_settings) = true →
  ∃ entries : list (gmap string json),
    json_field "keys" jwks = Some (JList (JObj <$> entries))
    ∧ Forall2
        (λ pem entry,
           (∀ field value,
              jwk_export_public env pem !! field = Some value →
              entry !! field = Some value)
           ∧ (∀ field value,
                (field, value) ∈ [("alg", JStr "RS256"); ("use", JStr "sig");
                                  ("kid", JStr (jwk_thumbprint env pem))] →
                jwk_export_public env pem !! field = None →
                entry !! field = Some value))
        (OIDC_RSA_PRIVATE_KEY oauth2_settings
           :: OIDC_RSA_PRIVATE_KEYS_INACTIVE oauth2_settings)
        entries.
Proof.
  intros Hkey. unfold JwksInfoView_get, json_field. rewrite Hkey.
  eexists. split; [by rewrite lookup_singleton_eq|].
  apply Forall2_fmap_r, Forall_Forall2_diag, Forall_forall. intros pem _. split.
  - intros field value Hexp. by apply lookup_union_Some_l.
  - intros field value Hin Hexp. rewrite lookup_union_r by done.
    rewrite !elem_of_cons, elem_of_nil in Hin.
    by destruct Hin as [[= -> ->]|[[= -> ->]|[[= -> ->]|[]]]].
Qed.

End MoreDocuments.

(** ** The further properties on the concrete deployments *)

Module RunMore.
Import Example.

#[local] Abbreviation validate := (validate_logout_request settings env).

#[local] Abbreviation uri_done := (Some "https://app.example/done" : option string).


(** X2 at a hint that does not load, sent with a good client_id. *)
Lemma validate_invalid_hint_witness :
  _load_id_token env "garbage" = None
  ∧ validate alice (Some "garbage") (Some "abc") uri_done world
    = (called world [CallLoadIdToken "garbage"], inl (OIDC InvalidIDTokenError)).
Proof.
  split; [reflexivity|].
  exact (validate_invalid_hint settings env alice (Some "garbage") (Some "abc")
           uri_done world eq_refl eq_refl).
Defined.

(** X3 at the registered URI of client [abc]. *)
Lemma validate_redirect_checked_witness :
  ∃ app, Some app_abc = Some app
    ∧ urlsplit_scheme "https://app.example/done" ≠ ""
    ∧ (urlsplit_scheme "https://app.example/done" = "http" →
       Application.client_type app = "confidential")
    ∧ urlsplit_scheme "https://app.example/done" ∈ Application.get_allowed_schemes app
    ∧ Application.post_logout_redirect_uri_allowed app "https://app.example/done" = true.
Proof.
  exact (validate_redirect_checked settings env alice None (Some "abc") uri_done
           world _ true uri_done (Some app_abc) eq_refl eq_refl).
Defined.

(** X4 at a token of client [abc] sent with that client_id. *)
Lemma validate_resolved_client_witness :
  ∃ app, Some app_abc = Some app
    ∧ Application.client_id app = "abc"
    ∧ app ∈ application_rows env
    ∧ (∀ a, a ∈ application_rows env → Application.client_id a = "abc" → a = app)
    ∧ (truthy (Some "token-alice") = true →
       ∃ tok, _load_id_token env "token-alice" = Some tok
              ∧ Application.client_id (IDToken.application tok) = "abc").
Proof.
  exact (proj1 (validate_resolved_client settings env alice (Some "token-alice")
                  (Some "abc") None world _ false None (Some app_abc) eq_refl)
           eq_refl).
Defined.

(** X5 at client [abc]: its registered URI passes, another https URI is
    refused as not registered. *)
Lemma validate_redirect_decision_witness :
  let w1 := called world [CallObjectsGet "abc"] in
  validate alice None (Some "abc") None world = (w1, inr (true, (None, Some app_abc)))
  ∧ validate alice None (Some "abc") uri_done world
    = (called w1 [CallUrlparse "https://app.example/done"],
       inr (true, (uri_done, Some app_abc)))
  ∧ validate alice None (Some "abc") (Some "https://app.example/other") world
    = (called w1 [CallUrlparse "https://app.example/other"],
       inl (OIDC (InvalidOIDCRedirectURIError
                    "This client does not have this redirect uri registered.")))
  ∧ (called w1 [CallUrlparse "https://app.example/other"]
     = called w1 [CallUrlparse "https://app.example/other"]
     ∧ "This client does not have this redirect uri registered."
       = "This client does not have this redirect uri registered.").
Proof.
  intros w1. split; [reflexivity|]. split; [reflexivity|]. split; [reflexivity|].
  exact (validate_redirect_decision settings env alice None (Some "abc")
           (Some "https://app.example/other") world w1
           (called w1 [CallUrlparse "https://app.example/other"]) true app_abc
           (inl (OIDC (InvalidOIDCRedirectURIError
                         "This client does not have this redirect uri registered.")))
           eq_refl eq_refl eq_refl).
Defined.

(** X6 at a token of client [pub] sent with client_id [abc]. *)
Lemma validate_exception_causes_witness :
  validate alice (Some "token-bob") (Some "abc") None world
  = (called world [CallLoadIdToken "token-bob"], inl (OIDC ClientIdMissmatch))
  ∧ truthy (Some "token-bob") = true ∧ truthy (Some "abc") = true
  ∧ ∃ tok, _load_id_token env "token-bob" = Some tok
           ∧ Application.client_id (IDToken.application tok) ≠ "abc".
Proof.
  split; [reflexivity|].
  exact (validate_exception_causes settings env alice (Some "token-bob") (Some "abc")
           None world _ ClientIdMissmatch eq_refl).
Defined.


(** X8 at the same GET, in the deployment that always prompts. *)
Lemma get_always_prompt_witness :
  let r : Exception + HttpResponse :=
    inr (TemplateResponse
           (ConfirmContext
              (list_to_map [("id_token_hint", Some "token-alice");
                            ("logout_hint", None); ("client_id", None);
                            ("post_logout_redirect_uri", None);
                            ("state", None); ("ui_locales", None)])
              (Some app_abc))
           200) in
  get Variants.settings_always_prompt env {[ "id_token_hint" := "token-alice" ]} world
  = (called world [CallLoadIdToken "token-alice"], r)
  ∧ session_intact world (called world [CallLoadIdToken "token-alice"])
  ∧ ∀ redirect_to allowed_schemes,
      r ≠ inr (OAuth2ResponseRedirect redirect_to allowed_schemes).
Proof.
  intros r. split; [reflexivity|].
  exact (get_always_prompt Variants.settings_always_prompt env
           {[ "id_token_hint" := "token-alice" ]} world _ r eq_refl eq_refl).
Defined.

(** X9 at two submissions of a hint that does not load. *)
Lemma form_valid_allow_after_validation_witness :
  let form allow :=
    {| cleaned_data := {[ "id_token_hint" := "garbage" ]}; cleaned_allow := allow |} in
  form_valid settings env (form true) world = form_valid settings env (form false) world
  ∧ form_valid settings env (form true) world
    = (called world [CallLoadIdToken "garbage"],
       inr (TemplateResponse (ErrorContext InvalidIDTokenError) 400)).
Proof.
  intros form.
  exact (form_valid_allow_after_validation settings env (form true) (form false)
           world _ (OIDC InvalidIDTokenError) eq_refl eq_refl).
Defined.

(** X10 at a submission for client [abc]: refused without [allow],
    ended with it. *)
Lemma form_valid_confirmation_witness :
  let form allow :=
    {| cleaned_data := {[ "client_id" := "abc" ]}; cleaned_allow := allow |} in
  let w1 := called world [CallObjectsGet "abc"] in
  form_valid settings env (form false) world
  = (w1, inr (TemplateResponse (ErrorContext LogoutDenied) 400))
  ∧ ∃ r, form_valid settings env (form true) world = (logged_out w1, r)
      ∧ do_logout settings env (Some app_abc) None None w1 = (logged_out w1, r)
      ∧ ((∃ redirect_to allowed_schemes,
            r = inr (OAuth2ResponseRedirect redirect_to allowed_schemes))
         ∨ (∃ class_name, r = inl (Raised class_name))).
Proof.
  intros form w1. split.
  - exact (form_valid_confirmation settings env (form false) world w1 true None
             (Some app_abc) eq_refl).
  - exact (form_valid_confirmation settings env (form true) world w1 true None
             (Some app_abc) eq_refl).
Defined.

(** X11 at the GET of [alice] with her token and the submission of the
    form that it fills, where the fields that were not sent are empty. *)
Lemma form_valid_agrees_with_get_witness :
  let GET : gmap string string := {[ "id_token_hint" := "token-alice" ]} in
  let form :=
    {| cleaned_data :=
         list_to_map [("id_token_hint", "token-alice"); ("logout_hint", "");
                      ("client_id", ""); ("post_logout_redirect_uri", "");
                      ("state", ""); ("ui_locales", "")];
       cleaned_allow := false |} in
  get settings env GET world
  = (logged_out (called world [CallLoadIdToken "token-alice"]),
     inr (OAuth2ResponseRedirect "https://idp.example/" ["http"; "https"]))
  ∧ form_valid settings env form world
    = (logged_out (called world [CallLoadIdToken "token-alice"]),
       inr (OAuth2ResponseRedirect "https://idp.example/" ["http"; "https"])).
Proof.
  intros GET form. split; [reflexivity|].
  apply (form_valid_agrees_with_get settings env GET form world).
  - intros key Hkey.
    repeat (apply elem_of_cons in Hkey as [->|Hkey]; [reflexivity|]).
    by apply elem_of_nil in Hkey.
  - reflexivity.
  - intros initial application status. discriminate.
Defined.

(** X12 at a GET that carries a [logout_hint] and [ui_locales] too. *)
Lemma get_confirmation_form_witness :
  let GET : gmap string string :=
    <["client_id" := "abc"]>
      (<["logout_hint" := "alice@example.org"]> {[ "ui_locales" := "fr" ]}) in
  let initial : gmap string (option string) :=
    list_to_map [("id_token_hint", None); ("logout_hint", None);
                 ("client_id", Some "abc"); ("post_logout_redirect_uri", None);
                 ("state", None); ("ui_locales", None)] in
  get settings env GET world
  = (called world [CallObjectsGet "abc"],
     inr (TemplateResponse (ConfirmContext initial (Some app_abc)) 200))
  ∧ (200 = 200)%Z
  ∧ session_intact world (called world [CallObjectsGet "abc"])
  ∧ initial = list_to_map [
      ("id_token_hint", GET !! "id_token_hint");
      ("logout_hint", None);
      ("client_id", GET !! "client_id");
      ("post_logout_redirect_uri", GET !! "post_logout_redirect_uri");
      ("state", GET !! "state");
      ("ui_locales", None)].
Proof.
  intros GET initial. split; [reflexivity|].
  exact (get_confirmation_form settings env GET world _ initial (Some app_abc) 200
           eq_refl).
Defined.

(** X14 at the GET of a client_id that names no application. *)
Lemma logout_view_exceptions_witness :
  get settings env {[ "client_id" := "nobody" ]} world
  = (called world [CallObjectsGet "nobody"], inl DoesNotExist)
  ∧ ∀ error, DoesNotExist ≠ OIDC error.
Proof.
  split; [reflexivity|].
  apply (logout_view_exceptions settings env {[ "client_id" := "nobody" ]}
           {| cleaned_data := ∅; cleaned_allow := false |} world
           (called world [CallObjectsGet "nobody"]) DoesNotExist).
  left. reflexivity.
Defined.

(** X22 at a GET with a hint that does not load. *)
Lemma get_after_failed_validation_witness :
  get settings env {[ "id_token_hint" := "garbage" ]} world
  = (called world [CallLoadIdToken "garbage"],
     inr (TemplateResponse (ErrorContext InvalidIDTokenError) 400)).
Proof.
  exact (get_after_failed_validation settings env {[ "id_token_hint" := "garbage" ]}
           world _ (OIDC InvalidIDTokenError) eq_refl).
Defined.

(** X19 at a deployment with an inactive key and no active one. *)
Lemma jwks_without_active_key_witness :
  OIDC_RSA_PRIVATE_KEYS_INACTIVE Variants.settings_always_prompt = ["pem-old"]
  ∧ json_field "keys" (JwksInfoView_get Variants.settings_always_prompt env)
    = Some (JList []).
Proof.
  split; [reflexivity|].
  exact (jwks_without_active_key Variants.settings_always_prompt env eq_refl).
Defined.

(** X20 at a deployment with two keys whose export names its own [use]:
    the export's value stays, [alg] and [kid] are added. *)
Lemma jwks_entries_witness :
  json_field "keys" (JwksInfoView_get Variants.settings_issuer Variants.env)
  = Some (JList [
      JObj (list_to_map [("alg", JStr "RS256"); ("use", JStr "enc");
                         ("kid", JStr "kid-pem-new"); ("kty", JStr "RSA");
                         ("n", JStr "pem-new")]);
      JObj (list_to_map [("alg", JStr "RS256"); ("use", JStr "enc");
                         ("kid", JStr "kid-pem-old"); ("kty", JStr "RSA");
                         ("n", JStr "pem-old")])])
  ∧ ∃ entries : list (gmap string json),
      json_field "keys" (JwksInfoView_get Variants.settings_issuer Variants.env)
      = Some (JList (JObj <$> entries))
      ∧ length entries = 2.
Proof.
  split; [reflexivity|].
  destruct (jwks_entries Variants.settings_issuer Variants.env eq_refl)
    as (entries & Hkeys & Hall).
  exists entries. split; [exact Hkeys|].
  by rewrite <- (Forall2_length _ _ _ Hall).
Defined.

(** The documents of the deployment with an issuer override. *)
Example discovery_with_issuer_override :
  json_field "authorization_endpoint"
    (ConnectDiscoveryInfoView_get Variants.settings_issuer Variants.env)
  = Some (JStr "https://sso.example/o/oauth2_provider:authorize")
  ∧ json_field "userinfo_endpoint"
      (ConnectDiscoveryInfoView_get Variants.settings_issuer Variants.env)
    = Some (JStr "https://api.example/me")
  ∧ json_field "end_session_endpoint"
      (ConnectDiscoveryInfoView_get Variants.settings_issuer Variants.env)
    = None.
Proof. repeat split. Qed.

End RunMore.
